(** * Ellerslie School AI backend: the handlers of [server.js]

    A shallow embedding of the Express handlers of [src/server.js]
    (signup, login, the [verifyToken] middleware and the chat proxy)
    together with the part of their collaborators that the handlers
    observe: the [users] table declared in [initDb], the [bcryptjs]
    and [jsonwebtoken] calls, the [pg] driver and the model-API
    client. *)

From Stdlib Require Import String Ascii List ZArith Bool Lia DecimalString.
Import ListNotations.
Open Scope string_scope.
Open Scope Z_scope.

(** ** JavaScript values *)

(** The values a parsed JSON body can hold, plus [undefined] for a
    property that is not there.  Numbers are kept as integers: the
    handlers only look at the falsiness and the [typeof] of a number
    they receive, and the numbers they produce are row ids and
    timestamps. *)
#[warnings="-register-all"]
Inductive jsval : Type :=
| JUndefined
| JNull
| JBool (b : bool)
| JNum (n : Z)
| JStr (s : string)
| JArr (items : list jsval)
| JObj (fields : list (string * jsval)).

(** An object: its properties in the order of the literal. *)
Definition obj := list (string * jsval).

(** [o.k]: the property, or [undefined]. *)
Fixpoint get (k : string) (o : obj) : jsval :=
  match o with
  | [] => JUndefined
  | (k', v) :: o' => if String.eqb k k' then v else get k o'
  end.

Definition keys (o : obj) : list string := map fst o.

(** [!!v] *)
Definition truthy (v : jsval) : bool :=
  match v with
  | JUndefined | JNull => false
  | JBool b => b
  | JNum n => negb (n =? 0)
  | JStr s => negb (String.eqb s "")
  | JArr _ | JObj _ => true
  end.

Definition typeof (v : jsval) : string :=
  match v with
  | JUndefined => "undefined"
  | JNull => "object"
  | JBool _ => "boolean"
  | JNum _ => "number"
  | JStr _ => "string"
  | JArr _ | JObj _ => "object"
  end.

(** [v === s] for a string literal [s]. *)
Definition strict_eq_str (v : jsval) (s : string) : bool :=
  match v with
  | JStr t => String.eqb t s
  | _ => false
  end.

(** [s.split(sep)] for a one-character separator. *)
Fixpoint split (sep : ascii) (s : string) : list string :=
  match s with
  | EmptyString => [EmptyString]
  | String c s' =>
      if Ascii.eqb c sep then EmptyString :: split sep s'
      else match split sep s' with
           | w :: ws => String c w :: ws
           | [] => [String c EmptyString]
           end
  end.

(** ** Exceptions and the handler monad *)

(** A thrown [Error]: [err.code] (set by the database driver) and
    [err.message]. *)
Record js_error : Type := mkError {
  code : option string;
  message : string
}.

Definition Error (msg : string) : js_error := mkError None msg.

Inductive result (A : Type) : Type :=
| Ok (a : A)
| Throw (err : js_error).
Arguments Ok {A} a.
Arguments Throw {A} err.

(** A computation that reads and writes a store [S] and may throw; the
    store is the [users] table for the auth endpoints and the log of
    the calls made to the model-API client for the chat endpoint.  A
    store change made before a throw stays. *)
Definition M (S A : Type) : Type := S -> result A * S.

Definition ret {S A} (a : A) : M S A := fun s => (Ok a, s).

Definition bind {S A B} (m : M S A) (k : A -> M S B) : M S B :=
  fun s =>
    match m s with
    | (Ok a, s') => k a s'
    | (Throw err, s') => (Throw err, s')
    end.

Definition lift {S A} (r : result A) : M S A := fun s => (r, s).

Notation "x <- m ;; k" := (bind m (fun x => k))
  (at level 61, m at next level, right associativity).

(** [try { body } catch (err) { handler }] *)
Definition try_catch {S A} (body : M S A) (handler : js_error -> A) : S -> A * S :=
  fun s =>
    match body s with
    | (Ok a, s') => (a, s')
    | (Throw err, s') => (handler err, s')
    end.

(** [x.k] where [x] may be [undefined] (an index past the end of an
    array): reading a property of [undefined] throws a [TypeError]. *)
Definition member (x : option obj) (k : string) : result jsval :=
  match x with
  | Some o => Ok (get k o)
  | None =>
      Throw (Error ("Cannot read properties of undefined (reading '" ++ k ++ "')"))
  end.

(** ** HTTP responses *)

Record response : Type := mkResponse {
  status : Z;
  body : jsval
}.

(** [res.status(c).json(b)] *)
Definition status_json (c : Z) (b : obj) : response := mkResponse c (JObj b).

(** [res.json(b)]: the status stays 200. *)
Definition json (b : obj) : response := mkResponse 200 (JObj b).

(** ** The [users] table *)

(** A row of [users] as [initDb] declares it. *)
Record user_row : Type := mkRow {
  col_id : Z;
  col_name : string;
  col_email : string;
  col_password : string;
  col_created_at : Z
}.

(** The table and the state of the sequence behind [id SERIAL]. *)
Record users_db : Type := mkDb {
  rows : list user_row;
  next_id : Z
}.

Definition empty_db : users_db := mkDb [] 1.

Definition dquote : string := String (ascii_of_nat 34) EmptyString.

Definition unique_violation (constraint : string) : js_error :=
  mkError (Some "23505")
    ("duplicate key value violates unique constraint "
       ++ dquote ++ constraint ++ dquote).

Definition too_long : js_error :=
  mkError (Some "22001") "value too long for type character varying(255)".

(** Text reaches the database as the bytes of its UTF-8 encoding, and
    a string here is those bytes. *)

(** PostgreSQL takes no text that holds the character U+0000, the one
    whose encoding has a zero byte. *)
Fixpoint no_nul (s : string) : bool :=
  match s with
  | EmptyString => true
  | String c s' => negb (Ascii.eqb c zero) && no_nul s'
  end.

Definition invalid_text : js_error :=
  mkError (Some "22021")
    ("invalid byte sequence for encoding " ++ dquote ++ "UTF8" ++ dquote
       ++ ": 0x00").

(** A byte [10xxxxxx] continues the character begun before it. *)
Definition continuation (c : ascii) : bool :=
  let '(Ascii _ _ _ _ _ _ b6 b7) := c in b7 && negb b6.

(** The number of characters of a text. *)
Fixpoint characters (s : string) : nat :=
  match s with
  | EmptyString => O
  | String c s' => if continuation c then characters s' else S (characters s')
  end.

(** The first [n] characters of a text, and what comes after them. *)
Fixpoint first_chars (n : nat) (s : string) : string :=
  match s with
  | EmptyString => EmptyString
  | String c s' =>
      if continuation c then String c (first_chars n s')
      else match n with
           | O => EmptyString
           | S m => String c (first_chars m s')
           end
  end.

Fixpoint after_chars (n : nat) (s : string) : string :=
  match s with
  | EmptyString => EmptyString
  | String c s' =>
      if continuation c then after_chars n s'
      else match n with
           | O => s
           | S m => after_chars m s'
           end
  end.

Fixpoint all_spaces (s : string) : bool :=
  match s with
  | EmptyString => true
  | String c s' => Ascii.eqb c " " && all_spaces s'
  end.

(** Assignment to a [VARCHAR(255)] column: a value of more than 255
    characters is an error unless the excess is all spaces, which are
    cut. *)
Definition varchar255 (s : string) : result string :=
  if Nat.leb (characters s) 255 then Ok s
  else if all_spaces (after_chars 255 s)
       then Ok (first_chars 255 s)
       else Throw too_long.

(** [INSERT INTO users (name, email, password) VALUES ($1, $2, $3)
    RETURNING id, name, email] on text parameters.  A parameter that
    is no text, or a value that does not fit its column, is refused
    before the sequence is asked; once the sequence value is taken it
    is used up, also when a constraint refuses the row. *)
Definition insert_user (name email password : string) (ts : Z)
  : M users_db user_row :=
  fun d =>
    if no_nul name && no_nul email && no_nul password then
      match varchar255 name, varchar255 email, varchar255 password with
      | Ok name', Ok email', Ok password' =>
          let id := next_id d in
          let d1 := mkDb (rows d) (id + 1) in
          if existsb (fun r => col_id r =? id) (rows d)
          then (Throw (unique_violation "users_pkey"), d1)
          else if existsb (fun r => String.eqb (col_email r) email') (rows d)
          then (Throw (unique_violation "users_email_key"), d1)
          else
            let r := mkRow id name' email' password' ts in
            (Ok r, mkDb (rows d ++ [r]) (id + 1))
      | Throw err, _, _ => (Throw err, d)
      | _, Throw err, _ => (Throw err, d)
      | _, _, Throw err => (Throw err, d)
      end
    else (Throw invalid_text, d).

(** The rows with this email, in table order. *)
Definition with_email (email : string) (d : users_db) : list user_row :=
  filter (fun r => String.eqb (col_email r) email) (rows d).

(** [SELECT * FROM users WHERE email = $1]: refused when the parameter
    is no text. *)
Definition select_by_email (email : string) : M users_db (list user_row) :=
  fun d =>
    if no_nul email then (Ok (with_email email d), d)
    else (Throw invalid_text, d).

(** The row object of [RETURNING id, name, email]. *)
Definition returning_row (r : user_row) : obj :=
  [("id", JNum (col_id r)); ("name", JStr (col_name r));
   ("email", JStr (col_email r))].

(** The row object of [SELECT *]. *)
Definition full_row (r : user_row) : obj :=
  [("id", JNum (col_id r)); ("name", JStr (col_name r));
   ("email", JStr (col_email r)); ("password", JStr (col_password r));
   ("created_at", JNum (col_created_at r))].

(** ** The libraries the handlers call *)

(** What the handlers use of [bcryptjs], [jsonwebtoken] and [pg]:
    - [bcrypt_hashpw p salt]: the hash of a string under a generated
      salt, written in the letters, digits and the signs [./$] that
      bcrypt writes hashes in, so a text with no U+0000 in it, and
      [bcrypt_checkpw p h]: whether [p] hashes to [h];
    - [jws_encode key payload]: the signed compact serialization, and
      [jws_decode key t]: the payload of a well-formed token whose
      signature [key] verifies;
    - [prepareValue v]: the text the driver sends for a query
      parameter that is not null. *)
Class Libraries : Type := {
  bcrypt_hashpw : string -> string -> string;
  bcrypt_hashpw_text : forall p salt, no_nul (bcrypt_hashpw p salt) = true;
  bcrypt_checkpw : string -> string -> bool;
  jws_encode : string -> obj -> string;
  jws_decode : string -> string -> option obj;
  prepareValue : jsval -> string
}.

(** What a request finds outside the process: the environment variable,
    the salt [bcrypt.genSalt] draws and the clock (in seconds). *)
Record config : Type := mkConfig {
  JWT_SECRET : option string
}.

Record env : Type := mkEnv {
  salt : string;
  now : Z
}.

(** [process.env.JWT_SECRET || 'dev_secret_key'] *)
Definition secret (cfg : config) : string :=
  match JWT_SECRET cfg with
  | Some s => if String.eqb s "" then "dev_secret_key" else s
  | None => "dev_secret_key"
  end.

Section Server.

Context {L : Libraries}.

(** *** bcryptjs *)

(** [bcrypt.hash(s, 10)] *)
Definition bcrypt_hash (s : jsval) (salt : string) : result string :=
  match s with
  | JStr p => Ok (bcrypt_hashpw p salt)
  | _ => Throw (Error ("Illegal arguments: " ++ typeof s ++ ", number"))
  end.

(** [bcrypt.compare(s, hash)] *)
Definition bcrypt_compare (s hash : jsval) : result bool :=
  match s, hash with
  | JStr p, JStr h => Ok (bcrypt_checkpw p h)
  | _, _ =>
      Throw (Error ("Illegal arguments: " ++ typeof s ++ ", " ++ typeof hash))
  end.

(** *** jsonwebtoken *)

(** [jwt.sign(payload, secretOrPrivateKey)] with no options: the
    issued-at claim is added, nothing else. *)
Definition jwt_sign (payload : obj) (secretOrPrivateKey : string) (clock : Z)
  : string :=
  jws_encode secretOrPrivateKey (payload ++ [("iat", JNum clock)])%list.

(** The not-before check of [jwt.verify]. *)
Definition check_nbf (payload : obj) (clock : Z) : result unit :=
  match get "nbf" payload with
  | JUndefined => Ok tt
  | JNum nbf =>
      if clock <? nbf then Throw (Error "jwt not active") else Ok tt
  | _ => Throw (Error "invalid nbf value")
  end.

(** The expiry check of [jwt.verify]. *)
Definition check_exp (payload : obj) (clock : Z) : result unit :=
  match get "exp" payload with
  | JUndefined => Ok tt
  | JNum exp =>
      if exp <=? clock then Throw (Error "jwt expired") else Ok tt
  | _ => Throw (Error "invalid exp value")
  end.

(** [jwt.verify(token, secretOrPublicKey)] with no options: the token
    must be there, decode under the key, and be inside its [nbf] and
    [exp] bounds when it carries them. *)
Definition jwt_verify (token : option string) (secretOrPublicKey : string)
  (clock : Z) : result obj :=
  match token with
  | None => Throw (Error "jwt must be provided")
  | Some t =>
      if String.eqb t "" then Throw (Error "jwt must be provided")
      else
        match jws_decode secretOrPublicKey t with
        | None => Throw (Error "invalid token")
        | Some payload =>
            match check_nbf payload clock with
            | Throw err => Throw err
            | Ok _ =>
                match check_exp payload clock with
                | Throw err => Throw err
                | Ok _ => Ok payload
                end
            end
        end
  end.

(** *** pg *)

(** [pool.query('INSERT INTO users ... RETURNING id, name, email',
    [name, email, hash])]: the rows of the result. *)
Definition query_insert (name email hash : jsval) (ts : Z)
  : M users_db (list obj) :=
  r <- insert_user (prepareValue name) (prepareValue email)
         (prepareValue hash) ts ;;
  ret [returning_row r].

(** [pool.query('SELECT * FROM users WHERE email = $1', [email])] *)
Definition query_select (email : jsval) : M users_db (list obj) :=
  rs <- select_by_email (prepareValue email) ;;
  ret (map full_row rs).

(** ** Middleware *)

(** What a middleware does with a request: answer it, or hand it on
    with [req.user] set. *)
Inductive gate : Type :=
| Respond (res : response)
| Next (user : obj).

(** [verifyToken]: [authorization] is [req.headers.authorization]. *)
Definition verifyToken (cfg : config) (clock : Z)
  (authorization : option string) : gate :=
  match authorization with
  | None => Respond (status_json 401 [("error", JStr "No token")])
  | Some auth =>
      if String.eqb auth ""
      then Respond (status_json 401 [("error", JStr "No token")])
      else
        let token := nth_error (split " " auth) 1 in
        match jwt_verify token (secret cfg) clock with
        | Ok user => Next user
        | Throw _ => Respond (status_json 401 [("error", JStr "Invalid token")])
        end
  end.

(** ** Auth endpoints *)

(** [err.code === '23505'] *)
Definition is_unique_violation (err : js_error) : bool :=
  match code err with
  | Some c => String.eqb c "23505"
  | None => false
  end.

(** [POST /api/auth/signup] on [req.body]. *)
Definition signup (cfg : config) (e : env) (req_body : obj)
  : users_db -> response * users_db :=
  try_catch
    (let name := get "name" req_body in
     let email := get "email" req_body in
     let password := get "password" req_body in
     if negb (truthy name) || negb (truthy email) || negb (truthy password)
     then ret (status_json 400 [("error", JStr "Missing required fields")])
     else
       hash <- lift (bcrypt_hash password (salt e)) ;;
       result_rows <- query_insert name email (JStr hash) (now e) ;;
       let user := nth_error result_rows 0 in
       user_id <- lift (member user "id") ;;
       user_email <- lift (member user "email") ;;
       let token :=
         jwt_sign [("userId", user_id); ("email", user_email)]
           (secret cfg) (now e) in
       user_name <- lift (member user "name") ;;
       ret (status_json 201
              [("token", JStr token);
               ("user", JObj [("id", user_id); ("name", user_name);
                              ("email", user_email)])]))
    (fun err =>
       if is_unique_violation err
       then status_json 400 [("error", JStr "Email already exists")]
       else status_json 500 [("error", JStr (message err))]).

(** [POST /api/auth/login] on [req.body]. *)
Definition login (cfg : config) (e : env) (req_body : obj)
  : users_db -> response * users_db :=
  try_catch
    (let email := get "email" req_body in
     let password := get "password" req_body in
     if negb (truthy email) || negb (truthy password)
     then ret (status_json 400 [("error", JStr "Missing email or password")])
     else
       result_rows <- query_select email ;;
       if Nat.eqb (List.length result_rows) 0
       then ret (status_json 401 [("error", JStr "Invalid credentials")])
       else
         let user := nth_error result_rows 0 in
         user_password <- lift (member user "password") ;;
         matched <- lift (bcrypt_compare password user_password) ;;
         if negb matched
         then ret (status_json 401 [("error", JStr "Invalid credentials")])
         else
           user_id <- lift (member user "id") ;;
           user_email <- lift (member user "email") ;;
           let token :=
             jwt_sign [("userId", user_id); ("email", user_email)]
               (secret cfg) (now e) in
           user_name <- lift (member user "name") ;;
           ret (json
                  [("token", JStr token);
                   ("user", JObj [("id", user_id); ("name", user_name);
                                  ("email", user_email)])]))
    (fun err => status_json 500 [("error", JStr (message err))]).

(** ** Chat endpoint *)

(** The argument of [client.messages.create] and the part of its
    result the handler reads: the array of content blocks. *)
Record create_params : Type := mkParams {
  model : string;
  max_tokens : Z;
  system : string;
  messages : list obj
}.

Record api_message : Type := mkMessage {
  content : list obj
}.

(** The client of the model API, [new Anthropic()]: what a call of
    [client.messages.create] resolves to, or the error it rejects
    with.  A call is at least one request to the API; the client may
    repeat a request that failed before it gives up, and what it does
    inside a call is not looked into. *)
Definition api_client : Type := create_params -> result api_message.

Definition system_prompt : string :=
  "You are Ellerslie School AI, a helpful tutor designed for school students. Help with homework, explain concepts clearly, suggest study tips, and encourage learning. Keep responses focused and under 500 words.".

(** The request the handler builds around the user's message. *)
Definition chat_params (message : jsval) : create_params :=
  mkParams "claude-3-5-sonnet-20241022" 1024 system_prompt
    [[("role", JStr "user"); ("content", message)]].

(** [await client.messages.create(params)]: the call is recorded in the
    log, one entry for each call.  No entry means no call, and so no
    request to the API. *)
Definition messages_create (client : api_client) (params : create_params)
  : M (list create_params) api_message :=
  fun sent => (client params, (sent ++ [params])%list).

(** The handler of [POST /api/chat], run after [verifyToken] has set
    [req.user]. *)
Definition chat_handler (client : api_client) (user : obj) (req_body : obj)
  : list create_params -> response * list create_params :=
  try_catch
    (let message := get "message" req_body in
     let userId := get "userId" user in
     if negb (truthy message)
     then ret (status_json 400 [("error", JStr "No message provided")])
     else
       response <- messages_create client (chat_params message) ;;
       let block := nth_error (content response) 0 in
       block_type <- lift (member block "type") ;;
       reply <- (if strict_eq_str block_type "text"
                 then lift (member block "text")
                 else ret (JStr "Could not understand response")) ;;
       ret (json [("reply", reply)]))
    (fun err => status_json 500 [("error", JStr (message err))]).

(** The route [app.post('/api/chat', verifyToken, handler)]. *)
Definition api_chat (cfg : config) (clock : Z) (client : api_client)
  (authorization : option string) (req_body : obj)
  : list create_params -> response * list create_params :=
  fun sent =>
    match verifyToken cfg clock authorization with
    | Respond res => (res, sent)
    | Next user => chat_handler client user req_body sent
    end.

(** [GET /health] *)
Definition health : response := json [("status", JStr "ok")].

End Server.

(** ** Vocabulary of the properties *)

(** Every id in the table was drawn from the sequence: what a table
    that only [signup] writes to satisfies. *)
Definition db_wf (d : users_db) : Prop :=
  Forall (fun r => col_id r < next_id d) (rows d).

(** Some row holds this email. *)
Definition email_taken (em : string) (d : users_db) : bool :=
  existsb (fun r => String.eqb (col_email r) em) (rows d).

(** [d'] holds the rows of [d], in place, and maybe later ones. *)
Definition extends (d d' : users_db) : Prop :=
  exists later, rows d' = (rows d ++ later)%list.

Fixpoint no_space (s : string) : bool :=
  match s with
  | EmptyString => true
  | String c s' => negb (Ascii.eqb c " ") && no_space s'
  end.

(** The claim set of a token the server issues, as [jwt.verify]
    returns it. *)
Definition claims (userId : Z) (email : string) (iat : Z) : obj :=
  [("userId", JNum userId); ("email", JStr email); ("iat", JNum iat)].

(** [v.k] on a response body. *)
Definition prop (v : jsval) (k : string) : jsval :=
  match v with
  | JObj fields => get k fields
  | _ => JUndefined
  end.

(** The public fields of a user, as the responses carry them. *)
Definition public_user (id : Z) (name email : string) : jsval :=
  JObj [("id", JNum id); ("name", JStr name); ("email", JStr email)].

(** A header of the form [Bearer <token>], in the words of the
    specification: the scheme word, one space, a token that is not
    empty. *)
Definition bearer_form (h : string) : bool :=
  prefix "Bearer " h && negb (String.eqb h "Bearer ").

(** The tables the server can be in: it starts on the empty table, and
    only the two auth endpoints run queries on it. *)
Inductive reachable {L : Libraries} : users_db -> Prop :=
| reach_empty : reachable empty_db
| reach_signup (cfg : config) (e : env) (req : obj) (d : users_db) :
    reachable d -> reachable (snd (signup cfg e req d))
| reach_login (cfg : config) (e : env) (req : obj) (d : users_db) :
    reachable d -> reachable (snd (login cfg e req d)).

(** What the catch block of signup answers. *)
Definition signup_caught (err : js_error) : response :=
  if is_unique_violation err
  then status_json 400 [("error", JStr "Email already exists")]
  else status_json 500 [("error", JStr (message err))].

(** The response of a signup ([c] is 201) or login (200) that went
    through, for the row [r]. *)
Definition granted {L : Libraries} (c : Z) (cfg : config) (e : env)
  (r : user_row) : response :=
  status_json c
    [("token", JStr (jwt_sign [("userId", JNum (col_id r));
                               ("email", JStr (col_email r))]
                       (secret cfg) (now e)));
     ("user", public_user (col_id r) (col_name r) (col_email r))].

(** ** A small instance of the libraries

    Stand-ins that compute, for running the handlers on concrete
    requests: a hash of fixed length 60 that keeps one character of
    the salt and one of the password, and a token format that writes
    the key and the three claims in a space-free, self-delimiting
    alphabet. *)
Module Toy.

Definition first_char (s : string) : ascii :=
  match s with
  | EmptyString => "."%char
  | String c _ => c
  end.

Definition filler58 : string :=
  "0123456789012345678901234567890123456789012345678901234567".

(** A character as two: its low and its high four bits, each in the
    range that starts at [@]. *)
Definition lo (c : ascii) : ascii :=
  let '(Ascii b0 b1 b2 b3 _ _ _ _) := c in
  Ascii b0 b1 b2 b3 false false true false.

Definition hi (c : ascii) : ascii :=
  let '(Ascii _ _ _ _ b4 b5 b6 b7) := c in
  Ascii b4 b5 b6 b7 false false true false.

Definition unnib (l h : ascii) : ascii :=
  let '(Ascii b0 b1 b2 b3 _ _ _ _) := l in
  let '(Ascii b4 b5 b6 b7 _ _ _ _) := h in
  Ascii b0 b1 b2 b3 b4 b5 b6 b7.

(** The hash keeps the low four bits of the first character of the
    salt and of the password. *)
Definition hashpw (p salt : string) : string :=
  String (lo (first_char salt)) (String (lo (first_char p)) filler58).

Lemma hashpw_text (p salt : string) : no_nul (hashpw p salt) = true.
Proof.
  unfold hashpw.
  destruct (first_char salt) as [[] [] [] [] ? ? ? ?],
    (first_char p) as [[] [] [] [] ? ? ? ?]; reflexivity.
Qed.


Definition checkpw (p h : string) : bool :=
  String.eqb h (hashpw p (String (first_char h) EmptyString)).

Fixpoint enc_pos (p : positive) : string :=
  match p with
  | xH => "h"
  | xO q => String "o" (enc_pos q)
  | xI q => String "i" (enc_pos q)
  end.

Definition enc_Z (z : Z) : string :=
  match z with
  | Z0 => "z"
  | Zpos p => String "p" (enc_pos p)
  | Zneg p => String "n" (enc_pos p)
  end.

Fixpoint dec_pos (s : string) : option (positive * string) :=
  match s with
  | EmptyString => None
  | String c r =>
      if Ascii.eqb c "h" then Some (xH, r)
      else if Ascii.eqb c "o"
      then match dec_pos r with
           | Some (q, r') => Some (xO q, r')
           | None => None
           end
      else if Ascii.eqb c "i"
      then match dec_pos r with
           | Some (q, r') => Some (xI q, r')
           | None => None
           end
      else None
  end.

Definition dec_Z (s : string) : option (Z * string) :=
  match s with
  | EmptyString => None
  | String c r =>
      if Ascii.eqb c "z" then Some (0, r)
      else if Ascii.eqb c "p"
      then match dec_pos r with
           | Some (q, r') => Some (Zpos q, r')
           | None => None
           end
      else if Ascii.eqb c "n"
      then match dec_pos r with
           | Some (q, r') => Some (Zneg q, r')
           | None => None
           end
      else None
  end.

Fixpoint enc_str (s : string) : string :=
  match s with
  | EmptyString => "."
  | String c r => String (lo c) (String (hi c) (enc_str r))
  end.

Fixpoint dec_str (s : string) : option (string * string) :=
  match s with
  | EmptyString => None
  | String a r =>
      if Ascii.eqb a "." then Some (EmptyString, r)
      else match r with
           | EmptyString => None
           | String b r' =>
               match dec_str r' with
               | Some (w, rest) => Some (String (unnib a b) w, rest)
               | None => None
               end
           end
  end.

Definition encode (key : string) (payload : obj) : string :=
  match get "userId" payload, get "email" payload, get "iat" payload with
  | JNum u, JStr e, JNum i =>
      enc_str key ++ enc_Z u ++ enc_str e ++ enc_Z i
  | _, _, _ => "x"
  end.

Definition decode (key t : string) : option obj :=
  match dec_str t with
  | Some (key', r1) =>
      if String.eqb key' key then
        match dec_Z r1 with
        | Some (u, r2) =>
            match dec_str r2 with
            | Some (e, r3) =>
                match dec_Z r3 with
                | Some (i, r4) =>
                    if String.eqb r4 "" then Some (claims u e i) else None
                | None => None
                end
            | None => None
            end
        | None => None
        end
      else None
  | None => None
  end.

Definition prepare (v : jsval) : string :=
  match v with
  | JStr s => s
  | JBool true => "true"
  | JBool false => "false"
  | _ => "?"
  end.

Definition libraries : Libraries := {|
  bcrypt_hashpw := hashpw;
  bcrypt_hashpw_text := hashpw_text;
  bcrypt_checkpw := checkpw;
  jws_encode := encode;
  jws_decode := decode;
  prepareValue := prepare
|}.

End Toy.

(** Requests and surroundings to run the handlers on. *)
Module Example.

Definition cfg : config := mkConfig None.

Definition at_signup : env := mkEnv "NaCl" 1000.

Definition at_login : env := mkEnv "KCl" 2000.

Definition ada : obj :=
  [("name", JStr "Ada"); ("email", JStr "ada@x.com");
   ("password", JStr "secret123")].


Definition ada_login : obj :=
  [("email", JStr "ada@x.com"); ("password", JStr "secret123")].

Definition ada_wrong : obj :=
  [("email", JStr "ada@x.com"); ("password", JStr "wrong")].

Definition bob_login : obj :=
  [("email", JStr "bob@x.com"); ("password", JStr "secret123")].

(** The table after Ada signed up, and her row. *)
Definition db_ada : users_db :=
  snd (signup (L := Toy.libraries) cfg at_signup ada empty_db).

Definition row_ada : user_row :=
  mkRow 1 "Ada" "ada@x.com" (Toy.hashpw "secret123" "NaCl") 1000.

(** The token her signup returned. *)
Definition token_ada : string :=
  jwt_sign (L := Toy.libraries)
    [("userId", JNum 1); ("email", JStr "ada@x.com")] (secret cfg) 1000.

Definition question : obj := [("message", JStr "What is 2+2?")].

(** A model API that answers one text block, one that answers a
    tool-use block, and one that answers no block. *)
Definition text_client : api_client :=
  fun _ => Ok (mkMessage [[("type", JStr "text"); ("text", JStr "4")]]).

Definition tool_client : api_client :=
  fun _ => Ok (mkMessage [[("type", JStr "tool_use"); ("name", JStr "calc")]]).

Definition empty_client : api_client :=
  fun _ => Ok (mkMessage []).

End Example.

(** ** Startup *)

(** Rows of the two tables [initDb] declares besides [users]; no
    endpoint reads or writes them. *)
Record chat_row : Type := mkChat {
  chat_id : Z;
  chat_user_id : Z;
  chat_title : option string;
  chat_created_at : Z
}.

Record message_row : Type := mkMessageRow {
  message_id : Z;
  message_chat_id : Z;
  message_role : string;
  message_content : string;
  message_created_at : Z
}.

(** The database: each of the three tables is there or not. *)
Record database : Type := mkDatabase {
  users_table : option users_db;
  chats_table : option (list chat_row);
  messages_table : option (list message_row)
}.

Definition no_tables : database := mkDatabase None None None.

(** [process.env.PORT || 3000]: the number 3000 or the string of the
    environment. *)
Inductive port_value : Type :=
| PortNumber (n : Z)
| PortString (s : string).

(** What the process does that the outside sees: lines on the
    console, the server coming to listen on a port, [process.exit],
    and the process dying of an error that nothing caught. *)
Inductive event : Type :=
| Log (line : string)
| LogError (line : string)
| LogErrorObject (label : string) (err : js_error)
| Listen (p : port_value)
| Exit (exit_code : Z)
| Uncaught (err : js_error).

(** What [app.listen] comes to: the server listens and the callback
    runs; or the call itself throws (a port out of range); or the call
    returns and the port cannot be bound (it is taken), which the
    server reports later by an ['error'] event that nothing handles. *)
Inductive listen_outcome : Type :=
| Listens
| ListenThrows (err : js_error)
| ListenFails (err : js_error).

Record process : Type := mkProcess {
  db : database;
  trace : list event
}.

(** What startup finds outside the process: the environment variable,
    whether the query that creates a table is rejected by the
    connection, and what [app.listen] comes to. *)
Record startup_env : Type := mkStartup {
  PORT : option string;
  query_fault : string -> option js_error;
  listening : listen_outcome
}.

Definition port (env : startup_env) : port_value :=
  match PORT env with
  | Some s => if String.eqb s "" then PortNumber 3000 else PortString s
  | None => PortNumber 3000
  end.

(** [${p}] in a template literal. *)
Definition template (p : port_value) : string :=
  match p with
  | PortNumber n => NilZero.string_of_int (Z.to_int n)
  | PortString s => s
  end.

Definition emit (ev : event) : M process unit :=
  fun s => (Ok tt, mkProcess (db s) (trace s ++ [ev])%list).

(** [m; k] *)
Definition andthen {S A B} (m : M S A) (k : M S B) : M S B :=
  bind m (fun _ => k).

Notation "m >> k" := (andthen m k) (at level 62, right associativity).

(** [try { body } catch (err) { handler }] where the handler acts. *)
Definition try_catch_do {S A} (body : M S A) (handler : js_error -> M S A)
  : M S A :=
  fun s =>
    match body s with
    | (Ok a, s') => (Ok a, s')
    | (Throw err, s') => handler err s'
    end.

Definition undefined_table (table : string) : js_error :=
  mkError (Some "42P01")
    ("relation " ++ dquote ++ table ++ dquote ++ " does not exist").

(** [pool.query('CREATE TABLE IF NOT EXISTS users (...)')]: a table
    that is there is left as it is. *)
Definition create_users (fault : option js_error) : M process unit :=
  fun s =>
    match fault with
    | Some err => (Throw err, s)
    | None =>
        match users_table (db s) with
        | Some _ => (Ok tt, s)
        | None =>
            (Ok tt,
             mkProcess (mkDatabase (Some empty_db) (chats_table (db s)) (messages_table (db s)))
               (trace s))
        end
    end.

(** [CREATE TABLE IF NOT EXISTS chats (... REFERENCES users(id) ...)]:
    a new table needs the table it references. *)
Definition create_chats (fault : option js_error) : M process unit :=
  fun s =>
    match fault with
    | Some err => (Throw err, s)
    | None =>
        match chats_table (db s) with
        | Some _ => (Ok tt, s)
        | None =>
            match users_table (db s) with
            | Some _ =>
                (Ok tt,
                 mkProcess (mkDatabase (users_table (db s)) (Some []) (messages_table (db s)))
                   (trace s))
            | None => (Throw (undefined_table "users"), s)
            end
        end
    end.

(** [CREATE TABLE IF NOT EXISTS messages (... REFERENCES chats(id) ...)] *)
Definition create_messages (fault : option js_error) : M process unit :=
  fun s =>
    match fault with
    | Some err => (Throw err, s)
    | None =>
        match messages_table (db s) with
        | Some _ => (Ok tt, s)
        | None =>
            match chats_table (db s) with
            | Some _ =>
                (Ok tt,
                 mkProcess (mkDatabase (users_table (db s)) (chats_table (db s)) (Some []))
                   (trace s))
            | None => (Throw (undefined_table "chats"), s)
            end
        end
    end.

(** [initDb] *)
Definition initDb (env : startup_env) : M process unit :=
  try_catch_do
    (create_users (query_fault env "users") >>
     emit (Log "✓ Users table ready") >>
     create_chats (query_fault env "chats") >>
     emit (Log "✓ Chats table ready") >>
     create_messages (query_fault env "messages") >>
     emit (Log "✓ Messages table ready"))
    (fun err => emit (LogError ("Database init error: " ++ message err))).

(** [app.listen(port, callback)]: the callback runs once the server
    listens, and only then. *)
Definition app_listen (env : startup_env) (p : port_value) : M process unit :=
  match listening env with
  | Listens =>
      emit (Listen p) >>
      emit (Log ("✓ Server running at http://localhost:" ++ template p)) >>
      emit (Log ("✓ API base: http://localhost:" ++ template p ++ "/api"))
  | ListenThrows err => lift (Throw err)
  | ListenFails err => emit (Uncaught err)
  end.

(** [start] *)
Definition start (env : startup_env) : M process unit :=
  try_catch_do
    (initDb env >> app_listen env (port env))
    (fun err => emit (LogErrorObject "Startup error:" err) >> emit (Exit 1)).

(** The three lines of a startup that created or found all tables. *)
Definition ready_lines : list event :=
  [Log "✓ Users table ready"; Log "✓ Chats table ready";
   Log "✓ Messages table ready"].

Definition no_faults (env : startup_env) : Prop :=
  forall table, query_fault env table = None.

(** ** More vocabulary *)


(** The values the presence checks take for missing. *)
Definition falsy (v : jsval) : Prop :=
  v = JUndefined \/ v = JNull \/ v = JBool false \/ v = JNum 0 \/ v = JStr "".

(** The password column of the row holds a bcrypt hash. *)
Definition hashed {L : Libraries} (r : user_row) : Prop :=
  exists p s, col_password r = bcrypt_hashpw p s.

(** Whether the gate handed the request on. *)
Definition passes (g : gate) : bool :=
  match g with
  | Next _ => true
  | Respond _ => false
  end.

(** Surroundings to start the server in. *)
Module Boot.

Definition fresh : process := mkProcess no_tables [].

Definition all_up : startup_env := mkStartup None (fun _ => None) Listens.

Definition refused : js_error := Error "connect ECONNREFUSED 127.0.0.1:5432".

Definition db_down : startup_env :=
  mkStartup (Some "8080") (fun _ => Some refused) Listens.

Definition chats_down : startup_env :=
  mkStartup None
    (fun table => if String.eqb table "chats" then Some refused else None)
    Listens.

Definition in_use : js_error :=
  mkError (Some "EADDRINUSE") "listen EADDRINUSE: address already in use :::3000".

Definition port_taken : startup_env :=
  mkStartup (Some "") (fun _ => None) (ListenFails in_use).

Definition bad_port : js_error :=
  mkError (Some "ERR_SOCKET_BAD_PORT")
    "options.port should be >= 0 and < 65536. Received type string ('70000').".

Definition port_out_of_range : startup_env :=
  mkStartup (Some "70000") (fun _ => None) (ListenThrows bad_port).

Definition overloaded : api_client :=
  fun _ => Throw (Error "529 overloaded").

End Boot.

(** * Properties *)

(** ** Strings *)

Lemma eqb_empty_false (s : string) : s <> "" -> String.eqb s "" = false.
Proof. intros H. now apply String.eqb_neq. Qed.

Lemma split_not_nil (sep : ascii) (s : string) : split sep s <> [].
Proof.
  destruct s as [|c s]; simpl; [discriminate|].
  destruct (Ascii.eqb c sep); [discriminate|].
  destruct (split sep s); discriminate.
Qed.

(** A string with no space is the only piece of its split. *)
Lemma split_no_space (s : string) : no_space s = true -> split " " s = [s].
Proof.
  induction s as [|c s IH]; simpl; intros H; [reflexivity|].
  apply andb_true_iff in H. destruct H as [Hc Hs].
  apply negb_true_iff in Hc. rewrite Hc, (IH Hs). reflexivity.
Qed.

(** The first space ends the first piece. *)
Lemma split_word (w rest : string) :
  no_space w = true ->
  split " " (w ++ String " " rest) = w :: split " " rest.
Proof.
  induction w as [|c w IH]; simpl; intros H; [reflexivity|].
  apply andb_true_iff in H. destruct H as [Hc Hw].
  apply negb_true_iff in Hc. rewrite Hc, (IH Hw). reflexivity.
Qed.

Lemma no_space_app (a b : string) :
  no_space (a ++ b) = no_space a && no_space b.
Proof.
  induction a as [|c a IH]; simpl; [reflexivity|].
  now rewrite IH, andb_assoc.
Qed.

Lemma append_empty_r (s : string) : s ++ "" = s.
Proof. induction s as [|c s IH]; simpl; [reflexivity | now rewrite IH]. Qed.

Lemma characters_le_length (s : string) :
  (characters s <= String.length s)%nat.
Proof.
  induction s as [|c s IH]; simpl; [lia|].
  destruct (continuation c); lia.
Qed.

Lemma varchar255_fits (s : string) :
  (characters s <= 255)%nat -> varchar255 s = Ok s.
Proof.
  intros H. unfold varchar255.
  now apply Nat.leb_le in H; rewrite H.
Qed.

(** Text of no more than 255 bytes fits. *)
Lemma varchar255_short (s : string) :
  (String.length s <= 255)%nat -> varchar255 s = Ok s.
Proof.
  intros H. apply varchar255_fits.
  pose proof (characters_le_length s). lia.
Qed.

(** What a column takes has no U+0000 when the value had none. *)
Lemma first_chars_no_nul (n : nat) (s : string) :
  no_nul s = true -> no_nul (first_chars n s) = true.
Proof.
  revert n. induction s as [|c s IH]; intros n H; [reflexivity|].
  simpl in H. apply andb_true_iff in H. destruct H as [Hc Hs].
  simpl. destruct (continuation c); simpl.
  - now rewrite Hc, IH.
  - destruct n; simpl; [reflexivity | now rewrite Hc, IH].
Qed.

Lemma varchar255_no_nul (s s' : string) :
  no_nul s = true -> varchar255 s = Ok s' -> no_nul s' = true.
Proof.
  unfold varchar255. intros Hs H.
  destruct (Nat.leb (characters s) 255); [now inversion H; subst|].
  destruct (all_spaces (after_chars 255 s)); [|discriminate].
  inversion H; subst. now apply first_chars_no_nul.
Qed.

(** ** The small instance satisfies what is assumed of the libraries *)

Lemma toy_check_hash (p s : string) : Toy.checkpw p (Toy.hashpw p s) = true.
Proof.
  unfold Toy.checkpw, Toy.hashpw. apply String.eqb_eq. simpl.
  now destruct (Toy.first_char s).
Qed.

Lemma toy_hash_length (p s : string) : String.length (Toy.hashpw p s) = 60%nat.
Proof. reflexivity. Qed.

Lemma toy_dec_enc_pos (p : positive) (r : string) :
  Toy.dec_pos (Toy.enc_pos p ++ r) = Some (p, r).
Proof.
  induction p as [q IH|q IH|]; simpl; try rewrite IH; reflexivity.
Qed.

Lemma toy_dec_enc_Z (z : Z) (r : string) :
  Toy.dec_Z (Toy.enc_Z z ++ r) = Some (z, r).
Proof.
  destruct z; simpl; try rewrite toy_dec_enc_pos; reflexivity.
Qed.

Lemma toy_unnib (c : ascii) : Toy.unnib (Toy.lo c) (Toy.hi c) = c.
Proof. now destruct c. Qed.

Lemma toy_lo_not_dot (c : ascii) : Ascii.eqb (Toy.lo c) "." = false.
Proof. now destruct c as [[] [] [] [] ? ? ? ?]. Qed.

Lemma toy_dec_enc_str (s r : string) :
  Toy.dec_str (Toy.enc_str s ++ r) = Some (s, r).
Proof.
  induction s as [|c s IH]; [reflexivity|].
  cbn [Toy.enc_str append Toy.dec_str].
  now rewrite toy_lo_not_dot, IH, toy_unnib.
Qed.

Lemma toy_roundtrip (k : string) (u : Z) (e : string) (i : Z) :
  Toy.decode k (Toy.encode k (claims u e i)) = Some (claims u e i).
Proof.
  unfold Toy.decode, Toy.encode. cbn [claims get String.eqb Ascii.eqb Bool.eqb].
  rewrite toy_dec_enc_str, String.eqb_refl, toy_dec_enc_Z, toy_dec_enc_str.
  rewrite <- (append_empty_r (Toy.enc_Z i)).
  now rewrite toy_dec_enc_Z.
Qed.

Lemma toy_enc_pos_space (p : positive) : no_space (Toy.enc_pos p) = true.
Proof. induction p; simpl; auto. Qed.

Lemma toy_enc_Z_space (z : Z) : no_space (Toy.enc_Z z) = true.
Proof. destruct z; simpl; auto using toy_enc_pos_space. Qed.

Lemma toy_enc_str_space (s : string) : no_space (Toy.enc_str s) = true.
Proof.
  induction s as [|c s IH]; [reflexivity|].
  cbn [Toy.enc_str no_space]. rewrite IH.
  now destruct c as [[] [] [] [] [] [] [] []].
Qed.

Lemma toy_token_space (k : string) (p : obj) :
  no_space (Toy.encode k p) = true.
Proof.
  unfold Toy.encode.
  destruct (get "userId" p); try reflexivity.
  destruct (get "email" p); try reflexivity.
  destruct (get "iat" p); try reflexivity.
  rewrite !no_space_app, !toy_enc_Z_space, !toy_enc_str_space.
  reflexivity.
Qed.

Lemma toy_enc_str_nonempty (s r : string) : Toy.enc_str s ++ r <> "".
Proof. destruct s; discriminate. Qed.

Lemma toy_token_nonempty (k : string) (p : obj) : Toy.encode k p <> "".
Proof.
  unfold Toy.encode.
  destruct (get "userId" p); try discriminate.
  destruct (get "email" p); try discriminate.
  destruct (get "iat" p); try discriminate.
  apply toy_enc_str_nonempty.
Qed.

Lemma toy_prepare_string (s : string) : Toy.prepare (JStr s) = s.
Proof. reflexivity. Qed.

(** ** The table *)

Lemma empty_db_wf : db_wf empty_db.
Proof. constructor. Qed.

(** In a table that only the sequence numbers, the next id is free. *)
Lemma wf_fresh_id (d : users_db) :
  db_wf d -> existsb (fun r => col_id r =? next_id d) (rows d) = false.
Proof.
  unfold db_wf. intros H.
  induction H as [|r rs Hr _ IH]; simpl; [reflexivity|].
  rewrite IH, orb_false_r. apply Z.eqb_neq. lia.
Qed.

(** What an accepted insert did. *)
Lemma insert_user_inv (n e p : string) (ts : Z) (d d' : users_db)
  (r : user_row) :
  insert_user n e p ts d = (Ok r, d') ->
  exists n' e' p',
    varchar255 n = Ok n' /\ varchar255 e = Ok e' /\ varchar255 p = Ok p' /\
    r = mkRow (next_id d) n' e' p' ts /\
    d' = mkDb (rows d ++ [r]) (next_id d + 1) /\
    email_taken e' d = false.
Proof.
  unfold insert_user, email_taken. intros H.
  destruct (no_nul n && no_nul e && no_nul p); [|discriminate].
  destruct (varchar255 n) as [n'|]; [|destruct (varchar255 e), (varchar255 p); discriminate].
  destruct (varchar255 e) as [e'|]; [|destruct (varchar255 p); discriminate].
  destruct (varchar255 p) as [p'|]; [|discriminate].
  cbv zeta in H.
  destruct (existsb (fun r0 => col_id r0 =? next_id d) (rows d)); [discriminate|].
  destruct (existsb (fun r0 => String.eqb (col_email r0) e') (rows d)) eqn:He;
    [discriminate|].
  inversion H; subst. exists n', e', p'. repeat split; try reflexivity.
  exact He.
Qed.

(** An accepted insert was given text. *)
Lemma insert_user_text (n e p : string) (ts : Z) (d d' : users_db)
  (r : user_row) :
  insert_user n e p ts d = (Ok r, d') ->
  no_nul n = true /\ no_nul e = true /\ no_nul p = true.
Proof.
  unfold insert_user. intros H.
  destruct (no_nul n), (no_nul e), (no_nul p); try discriminate. auto.
Qed.

(** An insert of values that fit, under a free email, adds the row. *)
Lemma insert_user_ok (n e p : string) (ts : Z) (d : users_db) :
  db_wf d ->
  no_nul n = true -> no_nul e = true -> no_nul p = true ->
  varchar255 n = Ok n -> varchar255 e = Ok e -> varchar255 p = Ok p ->
  email_taken e d = false ->
  insert_user n e p ts d =
    (Ok (mkRow (next_id d) n e p ts),
     mkDb (rows d ++ [mkRow (next_id d) n e p ts]) (next_id d + 1)).
Proof.
  intros Hwf Tn Te Tp Hn He Hp Hfree. unfold insert_user.
  rewrite Tn, Te, Tp, Hn, He, Hp. cbv zeta. simpl andb. cbv iota.
  rewrite (wf_fresh_id d Hwf).
  unfold email_taken in Hfree. rewrite Hfree. reflexivity.
Qed.


(** Whatever an insert does, the ids stay below the sequence. *)
Lemma insert_user_wf (n e p : string) (ts : Z) (d : users_db) :
  db_wf d -> db_wf (snd (insert_user n e p ts d)).
Proof.
  intros Hwf.
  assert (Hup : db_wf (mkDb (rows d) (next_id d + 1))).
  { unfold db_wf in *. simpl. eapply Forall_impl; [|exact Hwf].
    simpl. intros; lia. }
  unfold insert_user.
  destruct (no_nul n && no_nul e && no_nul p); [|exact Hwf].
  destruct (varchar255 n); [|destruct (varchar255 e), (varchar255 p); exact Hwf].
  destruct (varchar255 e); [|destruct (varchar255 p); exact Hwf].
  destruct (varchar255 p); [|exact Hwf]. cbv zeta.
  destruct (existsb _ (rows d)); [exact Hup|].
  destruct (existsb _ (rows d)); [exact Hup|].
  unfold db_wf in *. simpl. apply Forall_app. split.
  - eapply Forall_impl; [|exact Hwf]. simpl. intros; lia.
  - repeat constructor. simpl. lia.
Qed.

(** A refused insert leaves the rows; the sequence does not go
    back. *)
Lemma insert_user_refused (n e p : string) (ts : Z) (d d' : users_db)
  (err : js_error) :
  insert_user n e p ts d = (Throw err, d') ->
  rows d' = rows d /\ next_id d <= next_id d'.
Proof.
  unfold insert_user. intros H.
  assert (Hsame : forall x, (@Throw user_row x, d) = (Throw err, d') ->
                            rows d' = rows d /\ next_id d <= next_id d').
  { intros x Hx. inversion Hx; subst. split; [reflexivity | lia]. }
  assert (Hnext : forall x,
             (@Throw user_row x, mkDb (rows d) (next_id d + 1))
               = (Throw err, d') ->
             rows d' = rows d /\ next_id d <= next_id d').
  { intros x Hx. inversion Hx; subst. simpl. split; [reflexivity | lia]. }
  destruct (no_nul n && no_nul e && no_nul p); [|eauto].
  destruct (varchar255 n);
    [|destruct (varchar255 e), (varchar255 p); eauto].
  destruct (varchar255 e); [|destruct (varchar255 p); eauto].
  destruct (varchar255 p); [|eauto].
  cbv zeta in H.
  destruct (existsb _ (rows d)); [eauto|].
  destruct (existsb _ (rows d)); [eauto|].
  discriminate.
Qed.

(** No row holds the email: no email of the table is it. *)
Lemma email_free_not_in (em : string) (d : users_db) :
  email_taken em d = false -> ~ In em (map col_email (rows d)).
Proof.
  unfold email_taken. induction (rows d) as [|r rs IH]; simpl; [tauto|].
  intros H. apply orb_false_iff in H. destruct H as [Hr Hrs].
  apply String.eqb_neq in Hr. intros [Heq|Hin]; [congruence | now apply IH].
Qed.

(** Whatever an insert does, no two rows share an email: the [UNIQUE]
    constraint of the column. *)
Lemma insert_user_unique (n e p : string) (ts : Z) (d : users_db) :
  NoDup (map col_email (rows d)) ->
  NoDup (map col_email (rows (snd (insert_user n e p ts d)))).
Proof.
  intros Hnd.
  destruct (insert_user n e p ts d) as [[r|err] d1] eqn:H.
  - destruct (insert_user_inv _ _ _ _ _ _ _ H)
      as (n' & e' & p' & _ & _ & _ & Hr & Hd1 & Hfree).
    subst d1. simpl. rewrite map_app. apply NoDup_app; auto.
    + simpl. repeat constructor. tauto.
    + intros a Hin [<-|[]]. subst r.
      now apply (email_free_not_in e' d Hfree).
  - destruct (insert_user_refused _ _ _ _ _ _ _ H) as [Hrows _].
    simpl. now rewrite Hrows.
Qed.

(** Whether an insert is accepted, and the id, name and email of the
    row it adds, do not depend on the password value, as long as that
    fits its column. *)
Lemma insert_user_other_password (n e p q : string) (ts : Z)
  (d d' : users_db) (r : user_row) :
  insert_user n e p ts d = (Ok r, d') ->
  no_nul q = true -> varchar255 q = Ok q ->
  insert_user n e q ts d =
    (Ok (mkRow (col_id r) (col_name r) (col_email r) q ts),
     mkDb (rows d ++ [mkRow (col_id r) (col_name r) (col_email r) q ts])
       (next_id d + 1)).
Proof.
  intros H Tq Hq.
  destruct (insert_user_inv _ _ _ _ _ _ _ H)
    as (n' & e' & p' & Hn & He & Hp & Hr & _ & Hfree).
  destruct (insert_user_text _ _ _ _ _ _ _ H) as (Tn & Te & Tp).
  unfold insert_user in *. rewrite Tn, Te, Tp, Hn, He, Hp in H.
  rewrite Tn, Te, Tq, Hn, He, Hq.
  simpl andb in *. cbv iota zeta in *.
  destruct (existsb (fun r0 => col_id r0 =? next_id d) (rows d));
    [discriminate|].
  unfold email_taken in Hfree. rewrite Hfree. subst r. reflexivity.
Qed.

(** No row with the email: the lookup is empty. *)
Lemma with_email_free (em : string) (d : users_db) :
  email_taken em d = false -> with_email em d = [].
Proof.
  unfold email_taken, with_email.
  induction (rows d) as [|r rs IH]; simpl; [reflexivity|].
  intros H. apply orb_false_iff in H. destruct H as [Hr Hrs].
  rewrite Hr. auto.
Qed.

(** A row added under a free email is the first the lookup finds,
    whatever came after it. *)
Lemma with_email_added (d d' : users_db) (r : user_row) (later : list user_row) :
  email_taken (col_email r) d = false ->
  rows d' = (rows d ++ [r] ++ later)%list ->
  exists rest, with_email (col_email r) d' = r :: rest.
Proof.
  intros Hfree Hrows. apply with_email_free in Hfree.
  unfold with_email in *. rewrite Hrows, filter_app, Hfree. simpl.
  rewrite String.eqb_refl. eauto.
Qed.

(** ** The handlers *)

Section Properties.

Context {L : Libraries}.

(** What is assumed of the libraries: [bcrypt.compare] accepts the
    password a hash was made from, and a hash is 60 characters long;
    [jwt.verify] under a key decodes what [jwt.sign] encoded under it,
    for the claim sets the server issues; a token has no space and is
    not empty; the driver sends a string parameter as it is. *)
Hypothesis bcrypt_compare_hash :
  forall p s, bcrypt_checkpw p (bcrypt_hashpw p s) = true.
Hypothesis bcrypt_hash_length :
  forall p s, String.length (bcrypt_hashpw p s) = 60%nat.
Hypothesis jws_roundtrip :
  forall k u e i, jws_decode k (jws_encode k (claims u e i)) = Some (claims u e i).
Hypothesis jws_no_space : forall k p, no_space (jws_encode k p) = true.
Hypothesis jws_nonempty : forall k p, jws_encode k p <> "".
Hypothesis prepare_string : forall s, prepareValue (JStr s) = s.

Ltac run :=
  unfold query_insert, query_select, select_by_email, messages_create;
  unfold try_catch, bind, lift, ret; cbv zeta.

(** Past the presence check and with a string password, a signup is
    its insert. *)
Lemma signup_run (cfg : config) (e : env) (req : obj) (p : string)
  (d : users_db) :
  truthy (get "name" req) = true -> truthy (get "email" req) = true ->
  get "password" req = JStr p -> p <> "" ->
  signup cfg e req d =
    match insert_user (prepareValue (get "name" req))
            (prepareValue (get "email" req))
            (bcrypt_hashpw p (salt e)) (now e) d with
    | (Ok r, d') => (granted 201 cfg e r, d')
    | (Throw err, d') => (signup_caught err, d')
    end.
Proof.
  intros Tn Te Hp Np. unfold signup. run. rewrite Tn, Te, Hp.
  cbn [truthy bcrypt_hash]. rewrite (eqb_empty_false p Np).
  cbn [negb orb]. cbv beta. rewrite prepare_string.
  destruct (insert_user _ _ _ _ d) as [[r|err] d1]; reflexivity.
Qed.

(** A signup answered 201 only after hashing a string password and
    inserting the row the response describes. *)
Lemma signup_created (cfg : config) (e : env) (req : obj) (d d' : users_db)
  (res : response) :
  signup cfg e req d = (res, d') -> status res = 201 ->
  exists p r,
    truthy (get "name" req) = true /\ truthy (get "email" req) = true /\
    get "password" req = JStr p /\ p <> "" /\
    insert_user (prepareValue (get "name" req)) (prepareValue (get "email" req))
      (bcrypt_hashpw p (salt e)) (now e) d = (Ok r, d') /\
    res = granted 201 cfg e r.
Proof.
  intros H Hst.
  destruct (truthy (get "name" req)) eqn:Tn;
    [|unfold signup in H; run; rewrite Tn in H; inversion H; subst; discriminate].
  destruct (truthy (get "email" req)) eqn:Te;
    [|unfold signup in H; run; rewrite Tn, Te in H; inversion H; subst;
      discriminate].
  destruct (get "password" req) as [| |b|z|p|xs|fs] eqn:Hp;
    try solve [unfold signup in H; run; rewrite Tn, Te, Hp in H; simpl in H;
               repeat match type of H with
                      | context [if ?c then _ else _] => destruct c
                      end;
               inversion H; subst; discriminate].
  assert (Np : p <> "").
  { intros ->. unfold signup in H. run. rewrite Tn, Te, Hp in H.
    inversion H; subst; discriminate. }
  rewrite (signup_run cfg e req p d Tn Te Hp Np) in H.
  destruct (insert_user _ _ _ _ d) as [[r|err] d1] eqn:Hins.
  - inversion H; subst. exists p, r. repeat split; auto.
  - unfold signup_caught in H.
    destruct (is_unique_violation err); inversion H; subst; discriminate.
Qed.

(** A signup with string fields that are not empty, a name and an
    email that are text of no more than 255 characters, under a free
    email, inserts the row and answers 201. *)
Lemma signup_ok (cfg : config) (e : env) (req : obj) (n em p : string)
  (d : users_db) :
  get "name" req = JStr n -> get "email" req = JStr em ->
  get "password" req = JStr p ->
  n <> "" -> em <> "" -> p <> "" ->
  no_nul n = true -> no_nul em = true ->
  (characters n <= 255)%nat -> (characters em <= 255)%nat ->
  db_wf d -> email_taken em d = false ->
  signup cfg e req d =
    (granted 201 cfg e (mkRow (next_id d) n em (bcrypt_hashpw p (salt e)) (now e)),
     mkDb (rows d ++ [mkRow (next_id d) n em (bcrypt_hashpw p (salt e)) (now e)])
       (next_id d + 1)).
Proof.
  intros Hn He Hp Nn Ne Np Tn Te Ln Le Hwf Hfree.
  unfold signup. run. rewrite Hn, He, Hp. cbn [truthy bcrypt_hash].
  rewrite !eqb_empty_false by assumption. cbn [negb orb].
  rewrite !prepare_string.
  rewrite insert_user_ok;
    auto using varchar255_fits, bcrypt_hashpw_text.
  apply varchar255_short. rewrite bcrypt_hash_length. lia.
Qed.

(** A login answered 200 only after finding a row under the email and
    matching a string password against its hash. *)
Lemma login_granted (cfg : config) (e : env) (req : obj) (d d' : users_db)
  (res : response) :
  login cfg e req d = (res, d') -> status res = 200 ->
  exists p r rest,
    get "password" req = JStr p /\
    with_email (prepareValue (get "email" req)) d = r :: rest /\
    bcrypt_checkpw p (col_password r) = true /\
    res = granted 200 cfg e r /\ d' = d.
Proof.
  unfold login. run. intros H Hst.
  destruct (truthy (get "email" req)); simpl in H;
    [|inversion H; subst; discriminate].
  destruct (truthy (get "password" req)); simpl in H;
    [|inversion H; subst; discriminate].
  destruct (no_nul (prepareValue (get "email" req))); simpl in H;
    [|inversion H; subst; discriminate].
  destruct (with_email _ d) as [|r rest] eqn:Hsel; simpl in H;
    [inversion H; subst; discriminate|].
  destruct (get "password" req) as [| |b|z|p|xs|fs]; simpl in H;
    try (inversion H; subst; discriminate).
  destruct (bcrypt_checkpw p (col_password r)) eqn:Hm; simpl in H;
    [|inversion H; subst; discriminate].
  inversion H; subst. exists p, r, rest. repeat split. exact Hm.
Qed.

(** A login with a string password that the hash of the first row
    under the email accepts answers 200 for that row. *)
Lemma login_ok (cfg : config) (e : env) (req : obj) (p : string)
  (d : users_db) (r : user_row) (rest : list user_row) :
  truthy (get "email" req) = true ->
  no_nul (prepareValue (get "email" req)) = true ->
  get "password" req = JStr p -> p <> "" ->
  with_email (prepareValue (get "email" req)) d = r :: rest ->
  bcrypt_checkpw p (col_password r) = true ->
  login cfg e req d = (granted 200 cfg e r, d).
Proof.
  intros Te Tx Hp Np Hsel Hm. unfold login. run.
  rewrite Te, Hp. cbn [truthy]. rewrite (eqb_empty_false p Np).
  cbn [negb orb]. cbv beta. rewrite Tx, Hsel. simpl. rewrite Hm.
  reflexivity.
Qed.

(** Login reads the table and leaves it as it is. *)
Lemma login_keeps_table (cfg : config) (e : env) (req : obj) (d : users_db) :
  snd (login cfg e req d) = d.
Proof.
  unfold login. run.
  destruct (negb (truthy (get "email" req)) || negb (truthy (get "password" req)));
    [reflexivity|]. cbv beta.
  destruct (no_nul (prepareValue (get "email" req))); [|reflexivity].
  destruct (with_email _ d) as [|r rest]; [reflexivity|]. simpl.
  destruct (bcrypt_compare _ _) as [[|]|err]; reflexivity.
Qed.

(** Signup keeps the ids below the sequence. *)
Lemma signup_keeps_wf (cfg : config) (e : env) (req : obj) (d : users_db) :
  db_wf d -> db_wf (snd (signup cfg e req d)).
Proof.
  intros Hwf. unfold signup. run.
  destruct (negb (truthy (get "name" req)) || negb (truthy (get "email" req))
            || negb (truthy (get "password" req))); [exact Hwf|].
  destruct (bcrypt_hash _ _) as [h|err]; [|exact Hwf]. cbv beta.
  pose proof (insert_user_wf (prepareValue (get "name" req))
                (prepareValue (get "email" req)) (prepareValue (JStr h))
                (now e) d Hwf) as W.
  destruct (insert_user _ _ _ _ d) as [[r|err] d1]; exact W.
Qed.

(** Signup keeps the emails of the table distinct. *)
Lemma signup_keeps_unique (cfg : config) (e : env) (req : obj) (d : users_db) :
  NoDup (map col_email (rows d)) ->
  NoDup (map col_email (rows (snd (signup cfg e req d)))).
Proof.
  intros Hnd. unfold signup. run.
  destruct (negb (truthy (get "name" req)) || negb (truthy (get "email" req))
            || negb (truthy (get "password" req))); [exact Hnd|].
  destruct (bcrypt_hash _ _) as [h|err]; [|exact Hnd]. cbv beta.
  pose proof (insert_user_unique (prepareValue (get "name" req))
                (prepareValue (get "email" req)) (prepareValue (JStr h))
                (now e) d Hnd) as W.
  destruct (insert_user _ _ _ _ d) as [[r|err] d1]; exact W.
Qed.

(** In every table the server reaches, each email is held by one row
    at most. *)
Lemma reachable_unique (d : users_db) :
  reachable d -> NoDup (map col_email (rows d)).
Proof.
  induction 1 as [|cfg e req d _ IH|cfg e req d _ IH].
  - constructor.
  - now apply signup_keeps_unique.
  - now rewrite login_keeps_table.
Qed.

(** Every table the server reaches numbers its rows from the
    sequence. *)
Lemma reachable_wf (d : users_db) : reachable d -> db_wf d.
Proof.
  induction 1 as [|cfg e req d _ IH|cfg e req d _ IH].
  - apply empty_db_wf.
  - now apply signup_keeps_wf.
  - now rewrite login_keeps_table.
Qed.

(** The token part of a header: the second piece of its split. *)
Lemma token_part (w t : string) :
  no_space w = true -> no_space t = true ->
  nth_error (split " " (w ++ String " " t)) 1 = Some t.
Proof.
  intros Hw Ht. now rewrite (split_word w t Hw), (split_no_space t Ht).
Qed.

Lemma header_not_empty (w t : string) :
  String.eqb (w ++ String " " t) "" = false.
Proof. apply String.eqb_neq. destruct w; discriminate. Qed.

(** A claim set with no [nbf] and no [exp] passes the time checks of
    [jwt.verify] at every reading of the clock. *)
Lemma issued_verifies (k : string) (u : Z) (em : string) (iat clock : Z) :
  jwt_verify (Some (jwt_sign [("userId", JNum u); ("email", JStr em)] k iat))
    k clock = Ok (claims u em iat).
Proof.
  unfold jwt_verify, jwt_sign. cbn [app].
  rewrite (eqb_empty_false _ (jws_nonempty k _)).
  change [("userId", JNum u); ("email", JStr em); ("iat", JNum iat)]
    with (claims u em iat).
  rewrite jws_roundtrip. reflexivity.
Qed.

(** The gate lets through a header made of any word without a space,
    a space, and a token the server issued. *)
Lemma verifyToken_issued (cfg : config) (clock : Z) (w : string) (u : Z)
  (em : string) (iat : Z) :
  no_space w = true ->
  verifyToken cfg clock
    (Some (w ++ String " "
             (jwt_sign [("userId", JNum u); ("email", JStr em)] (secret cfg) iat)))
  = Next (claims u em iat).
Proof.
  intros Hw. unfold verifyToken. rewrite header_not_empty. cbv zeta.
  rewrite token_part by (auto; apply jws_no_space).
  now rewrite issued_verifies.
Qed.

(** *** Signup, login and the gate *)

(** C1: a valid signup (its three fields strings that are not empty,
    its name and email text the database takes: no U+0000 and no more
    than 255 characters), under an email no row holds, answers 201
    with the id drawn from the sequence; from then on, whatever rows
    come later, a login with the same email and password answers 200
    with a token, and the gate of the chat endpoint decodes that
    token, and the one the signup returned, to the claims of that user
    id and email. *)
Theorem signup_login_token_roundtrip (cfg : config) (e1 e2 : env) (clock : Z)
  (req1 req2 : obj) (n em p : string) (d : users_db) :
  db_wf d -> email_taken em d = false ->
  get "name" req1 = JStr n -> get "email" req1 = JStr em ->
  get "password" req1 = JStr p ->
  n <> "" -> em <> "" -> p <> "" ->
  no_nul n = true -> no_nul em = true ->
  (characters n <= 255)%nat -> (characters em <= 255)%nat ->
  get "email" req2 = JStr em -> get "password" req2 = JStr p ->
  exists res1 d1 tok1,
    signup cfg e1 req1 d = (res1, d1) /\
    status res1 = 201 /\
    prop (body res1) "user" = public_user (next_id d) n em /\
    prop (body res1) "token" = JStr tok1 /\
    verifyToken cfg clock (Some ("Bearer " ++ tok1))
      = Next (claims (next_id d) em (now e1)) /\
    forall d2, extends d1 d2 ->
      exists res2 tok2,
        login cfg e2 req2 d2 = (res2, d2) /\
        status res2 = 200 /\
        prop (body res2) "user" = public_user (next_id d) n em /\
        prop (body res2) "token" = JStr tok2 /\
        verifyToken cfg clock (Some ("Bearer " ++ tok2))
          = Next (claims (next_id d) em (now e2)).
Proof.
  intros Hwf Hfree Hn He Hp Nn Ne Np Tn Te Ln Le He2 Hp2.
  set (r := mkRow (next_id d) n em (bcrypt_hashpw p (salt e1)) (now e1)).
  exists (granted 201 cfg e1 r), (mkDb (rows d ++ [r]) (next_id d + 1)).
  eexists. split; [now apply signup_ok|].
  repeat split.
  - apply (verifyToken_issued cfg clock "Bearer"). reflexivity.
  - intros d2 [later Hlater]. simpl in Hlater.
    destruct (with_email_added d d2 r later Hfree) as [rest Hsel].
    { now rewrite Hlater, <- app_assoc. }
    exists (granted 200 cfg e2 r). eexists. split.
    + apply login_ok with (p := p) (rest := rest); auto.
      * now rewrite He2; apply negb_true_iff, eqb_empty_false.
      * now rewrite He2, prepare_string.
      * now rewrite He2, prepare_string.
      * apply bcrypt_compare_hash.
    + repeat split.
      apply (verifyToken_issued cfg clock "Bearer"). reflexivity.
Qed.

(** C2, as the code has it: for an email that is truthy and that the
    driver sends as text with no U+0000 in it, a login whose password
    is truthy answers 401 with the body
    [{error: "Invalid credentials"}] when no row holds the email; a
    login whose password is a string, not empty, that [bcrypt.compare]
    does not match against the hash of the row answers the same 401;
    the table is not touched. *)
Theorem login_failures_indistinguishable (cfg : config) (e1 e2 : env)
  (req1 req2 : obj) (p2 : string) (d1 d2 : users_db) (r : user_row)
  (rest : list user_row) :
  truthy (get "email" req1) = true -> truthy (get "password" req1) = true ->
  no_nul (prepareValue (get "email" req1)) = true ->
  with_email (prepareValue (get "email" req1)) d1 = [] ->
  truthy (get "email" req2) = true ->
  no_nul (prepareValue (get "email" req2)) = true ->
  get "password" req2 = JStr p2 -> p2 <> "" ->
  with_email (prepareValue (get "email" req2)) d2 = r :: rest ->
  bcrypt_checkpw p2 (col_password r) = false ->
  login cfg e1 req1 d1
    = (status_json 401 [("error", JStr "Invalid credentials")], d1) /\
  login cfg e2 req2 d2
    = (status_json 401 [("error", JStr "Invalid credentials")], d2) /\
  fst (login cfg e1 req1 d1) = fst (login cfg e2 req2 d2).
Proof.
  intros Te1 Tp1 Tx1 Hnone Te2 Tx2 Hp2 Np2 Hsel Hcmp.
  assert (H1 : login cfg e1 req1 d1
               = (status_json 401 [("error", JStr "Invalid credentials")], d1)).
  { unfold login. run. rewrite Te1, Tp1. cbn [negb orb]. cbv beta.
    rewrite Tx1, Hnone. reflexivity. }
  assert (H2 : login cfg e2 req2 d2
               = (status_json 401 [("error", JStr "Invalid credentials")], d2)).
  { unfold login. run. rewrite Te2, Hp2. cbn [truthy].
    rewrite (eqb_empty_false p2 Np2). cbn [negb orb]. cbv beta.
    rewrite Tx2, Hsel. simpl. rewrite Hcmp. reflexivity. }
  rewrite H1, H2. auto.
Qed.

(** Past the presence check, a password that is not a string is not
    compared: under an email some row holds, [bcrypt.compare] rejects
    and the catch block answers 500; under an email no row holds, the
    answer is the 401 above. *)
Lemma login_password_not_string (cfg : config) (e : env) (req : obj)
  (d : users_db) (r : user_row) (rest : list user_row) :
  truthy (get "email" req) = true -> truthy (get "password" req) = true ->
  typeof (get "password" req) <> "string" ->
  no_nul (prepareValue (get "email" req)) = true ->
  with_email (prepareValue (get "email" req)) d = r :: rest ->
  login cfg e req d
    = (status_json 500
         [("error",
           JStr ("Illegal arguments: " ++ typeof (get "password" req)
                   ++ ", string"))], d).
Proof.
  intros Te Tp Hty Tx Hsel. unfold login. run. rewrite Te, Tp.
  cbn [negb orb]. cbv beta. rewrite Tx, Hsel.
  destruct (get "password" req); try reflexivity.
  now elim Hty.
Qed.


(** C5: a signup that answered 201 has the body [{token, user}] whose
    [user] holds the properties [id], [name] and [email] of the new row
    and no other; the token is made from the id and the email alone;
    the [password] column of the new row holds the bcrypt hash of the
    submitted password; and the response is the same under whatever
    salt the hash is made with. *)
Theorem signup_public_fields_only (cfg : config) (e : env) (req : obj)
  (d d' : users_db) (res : response) :
  signup cfg e req d = (res, d') -> status res = 201 ->
  exists p r,
    get "password" req = JStr p /\
    d' = mkDb (rows d ++ [r]) (next_id d + 1) /\
    col_password r = bcrypt_hashpw p (salt e) /\
    body res =
      JObj [("token",
             JStr (jwt_sign [("userId", JNum (col_id r));
                             ("email", JStr (col_email r))]
                     (secret cfg) (now e)));
            ("user",
             JObj [("id", JNum (col_id r)); ("name", JStr (col_name r));
                   ("email", JStr (col_email r))])] /\
    forall salt', fst (signup cfg (mkEnv salt' (now e)) req d) = res.
Proof.
  intros H Hst.
  destruct (signup_created cfg e req d d' res H Hst)
    as (p & r & Tn & Te & Hp & Np & Hins & Hres).
  assert (Hfit : forall s, varchar255 (bcrypt_hashpw p s) = Ok (bcrypt_hashpw p s)).
  { intros s0. apply varchar255_short. rewrite bcrypt_hash_length. lia. }
  destruct (insert_user_inv _ _ _ _ _ _ _ Hins)
    as (n' & e' & p' & _ & _ & Hp' & Hr & Hd' & _).
  rewrite Hfit in Hp'. inversion Hp'; subst p'.
  exists p, r. repeat split; auto.
  - now subst r.
  - now subst res.
  - intros salt'.
    rewrite (signup_run cfg (mkEnv salt' (now e)) req p d Tn Te Hp Np).
    cbn [salt now].
    rewrite (insert_user_other_password _ _ _ (bcrypt_hashpw p salt') _ _ _ _
               Hins (bcrypt_hashpw_text p salt') (Hfit salt')).
    now subst res.
Qed.

(** C6: the token in the body of a signup that answered 201, or of a
    login that answered 200, is signed over the claims [userId] and
    [email], to which the library adds [iat]; the claims hold no [exp],
    and [jwt.verify], and so the gate, accept the token at every
    reading of the clock. *)
Theorem issued_tokens_never_expire (cfg : config) (e : env) (req : obj)
  (d d' : users_db) (res : response) :
  (signup cfg e req d = (res, d') /\ status res = 201) \/
  (login cfg e req d = (res, d') /\ status res = 200) ->
  exists tok u em,
    prop (body res) "token" = JStr tok /\
    tok = jwt_sign [("userId", JNum u); ("email", JStr em)] (secret cfg) (now e) /\
    get "exp" (claims u em (now e)) = JUndefined /\
    forall clock,
      jwt_verify (Some tok) (secret cfg) clock = Ok (claims u em (now e)) /\
      verifyToken cfg clock (Some ("Bearer " ++ tok))
        = Next (claims u em (now e)).
Proof.
  intros [[H Hst]|[H Hst]].
  - destruct (signup_created cfg e req d d' res H Hst)
      as (p & r & _ & _ & _ & _ & _ & Hres).
    subst res. eexists; exists (col_id r), (col_email r).
    repeat split.
    + apply issued_verifies.
    + apply (verifyToken_issued cfg clock "Bearer"). reflexivity.
  - destruct (login_granted cfg e req d d' res H Hst)
      as (p & r & rest & _ & _ & _ & Hres & _).
    subst res. eexists; exists (col_id r), (col_email r).
    repeat split.
    + apply issued_verifies.
    + apply (verifyToken_issued cfg clock "Bearer"). reflexivity.
Qed.

(** *** The chat endpoint *)

Lemma get_absent (k : string) (o : obj) :
  ~ In k (keys o) -> get k o = JUndefined.
Proof.
  induction o as [|[k' v] o IH]; simpl; intros H; [reflexivity|].
  destruct (String.eqb_spec k k') as [->|_].
  - exfalso. apply H. now left.
  - apply IH. intros Hin. apply H. now right.
Qed.

(** A handler run whose message is falsy stops at the presence check,
    before the client is called. *)
Lemma chat_handler_falsy (client : api_client) (user req : obj)
  (sent : list create_params) :
  truthy (get "message" req) = false ->
  chat_handler client user req sent
    = (status_json 400 [("error", JStr "No message provided")], sent).
Proof. intros T. unfold chat_handler. run. now rewrite T. Qed.

(** A handler run whose message is truthy sends one request and
    answers from the first content block of what comes back. *)
Lemma chat_handler_run (client : api_client) (user req : obj)
  (sent : list create_params) :
  truthy (get "message" req) = true ->
  chat_handler client user req sent =
    (match client (chat_params (get "message" req)) with
     | Throw err => status_json 500 [("error", JStr (message err))]
     | Ok response =>
         match content response with
         | [] =>
             status_json 500
               [("error",
                 JStr "Cannot read properties of undefined (reading 'type')")]
         | block :: _ =>
             json [("reply",
                    if strict_eq_str (get "type" block) "text"
                    then get "text" block
                    else JStr "Could not understand response")]
         end
     end,
     (sent ++ [chat_params (get "message" req)])%list).
Proof.
  intros T. unfold chat_handler. run. rewrite T. cbn [negb]. cbv beta.
  destruct (client _) as [response|err]; [|reflexivity].
  destruct (content response) as [|block rest]; [reflexivity|].
  simpl. destruct (strict_eq_str (get "type" block) "text"); reflexivity.
Qed.

Lemma strict_eq_str_true (v : jsval) (s : string) :
  strict_eq_str v s = true <-> v = JStr s.
Proof.
  destruct v; simpl; split; try discriminate.
  - intros H. apply String.eqb_eq in H. now subst.
  - intros H. inversion H. apply String.eqb_refl.
Qed.

(** C4: a request to the chat route that passed the gate and whose
    body has no [message] property is answered 400 with an error body,
    and the log of requests sent upstream is what it was. *)
Theorem chat_without_message_no_upstream (cfg : config) (clock : Z)
  (client : api_client) (authorization : option string) (req user : obj)
  (sent : list create_params) :
  verifyToken cfg clock authorization = Next user ->
  ~ In "message" (keys req) ->
  api_chat cfg clock client authorization req sent
    = (status_json 400 [("error", JStr "No message provided")], sent).
Proof.
  intros Hgate Habs. unfold api_chat. rewrite Hgate.
  apply chat_handler_falsy. now rewrite (get_absent _ _ Habs).
Qed.

(** C7: when the model API answers a request that passed the gate and
    carries a truthy message, and the first content block has type
    ["text"], the response is 200 with [reply] the [text] of that
    block; when the first block is there with another type, [reply] is
    the fixed fallback string. *)
Theorem chat_reply_from_first_block (cfg : config) (clock : Z)
  (client : api_client) (authorization : option string) (req user : obj)
  (sent : list create_params) (answer : api_message) (block : obj)
  (rest : list obj) :
  verifyToken cfg clock authorization = Next user ->
  truthy (get "message" req) = true ->
  client (chat_params (get "message" req)) = Ok answer ->
  content answer = block :: rest ->
  (get "type" block = JStr "text" ->
   api_chat cfg clock client authorization req sent
     = (mkResponse 200 (JObj [("reply", get "text" block)]),
        (sent ++ [chat_params (get "message" req)])%list)) /\
  (get "type" block <> JStr "text" ->
   api_chat cfg clock client authorization req sent
     = (mkResponse 200 (JObj [("reply", JStr "Could not understand response")]),
        (sent ++ [chat_params (get "message" req)])%list)).
Proof.
  intros Hgate T Hup Hc. unfold api_chat. rewrite Hgate.
  rewrite (chat_handler_run client user req sent T), Hup, Hc.
  split; intros Ht.
  - apply strict_eq_str_true in Ht. now rewrite Ht.
  - destruct (strict_eq_str (get "type" block) "text") eqn:E; [|reflexivity].
    apply strict_eq_str_true in E. contradiction.
Qed.

(** C10: when the model API answers with an empty content array, the
    response is 500 with the message of the error that reading [type]
    of the missing first block raises, not the fallback reply. *)
Theorem chat_empty_content_is_500 (cfg : config) (clock : Z)
  (client : api_client) (authorization : option string) (req user : obj)
  (sent : list create_params) (answer : api_message) :
  verifyToken cfg clock authorization = Next user ->
  truthy (get "message" req) = true ->
  client (chat_params (get "message" req)) = Ok answer ->
  content answer = [] ->
  api_chat cfg clock client authorization req sent
    = (status_json 500
         [("error", JStr "Cannot read properties of undefined (reading 'type')")],
       (sent ++ [chat_params (get "message" req)])%list) /\
  prop (body (fst (api_chat cfg clock client authorization req sent))) "reply"
    = JUndefined.
Proof.
  intros Hgate T Hup Hc. unfold api_chat. rewrite Hgate.
  rewrite (chat_handler_run client user req sent T), Hup, Hc.
  split; reflexivity.
Qed.

(** *** The gate and the presence checks *)

(** C8, as the code has it: the gate answers 401 ["No token"] exactly
    when the header is absent or empty.  A header that is there and
    whose second space-separated piece is missing or fails
    [jwt.verify] is answered 401 ["Invalid token"]; so is every header
    with no space in it, a bare token and the word [Bearer] alone among
    them.  The word before the space is not looked at: any word
    followed by a space and a token the server issued passes. *)
Theorem verifyToken_header_forms (cfg : config) (clock : Z) :
  (forall authorization,
     verifyToken cfg clock authorization
       = Respond (status_json 401 [("error", JStr "No token")])
     <-> authorization = None \/ authorization = Some "") /\
  (forall h, h <> "" ->
     (forall user,
        jwt_verify (nth_error (split " " h) 1) (secret cfg) clock <> Ok user) ->
     verifyToken cfg clock (Some h)
       = Respond (status_json 401 [("error", JStr "Invalid token")])) /\
  (forall h, h <> "" -> no_space h = true ->
     verifyToken cfg clock (Some h)
       = Respond (status_json 401 [("error", JStr "Invalid token")])) /\
  (forall w u em iat, no_space w = true ->
     verifyToken cfg clock
       (Some (w ++ " " ++
              jwt_sign [("userId", JNum u); ("email", JStr em)] (secret cfg) iat))
     = Next (claims u em iat)).
Proof.
  repeat split.
  - unfold verifyToken. destruct authorization as [h|]; [|now left].
    destruct (String.eqb_spec h "") as [->|Hne]; [now right|].
    destruct (jwt_verify _ _ _); discriminate.
  - intros [->| ->]; reflexivity.
  - intros h Hne Hbad. unfold verifyToken.
    rewrite (eqb_empty_false h Hne). cbv zeta.
    destruct (jwt_verify _ _ _) as [user|err] eqn:E; [|reflexivity].
    now elim (Hbad user).
  - intros h Hne Hsp. unfold verifyToken.
    rewrite (eqb_empty_false h Hne). cbv zeta.
    now rewrite (split_no_space h Hsp).
  - intros w u em iat Hw. now apply verifyToken_issued.
Qed.

(** C9: the presence checks go by falsiness.  A signup in which
    [name], [email] or [password] is the empty string answers 400
    ["Missing required fields"]; a login in which [email] or
    [password] is the empty string answers 400
    ["Missing email or password"]; the chat handler, and so the chat
    route for a request that passed the gate, answers 400
    ["No message provided"] to a [message] that is the empty string.
    The table and the log of upstream requests are what they were. *)
Theorem empty_string_fields_rejected (cfg : config) (e : env) (clock : Z)
  (client : api_client) (authorization : option string) (req user : obj)
  (d : users_db) (sent : list create_params) :
  (get "name" req = JStr "" \/ get "email" req = JStr "" \/
   get "password" req = JStr "" ->
   signup cfg e req d
     = (status_json 400 [("error", JStr "Missing required fields")], d)) /\
  (get "email" req = JStr "" \/ get "password" req = JStr "" ->
   login cfg e req d
     = (status_json 400 [("error", JStr "Missing email or password")], d)) /\
  (get "message" req = JStr "" ->
   chat_handler client user req sent
     = (status_json 400 [("error", JStr "No message provided")], sent) /\
   (verifyToken cfg clock authorization = Next user ->
    api_chat cfg clock client authorization req sent
      = (status_json 400 [("error", JStr "No message provided")], sent))).
Proof.
  repeat split.
  - intros H. unfold signup. run.
    destruct H as [H|[H|H]]; rewrite H; cbn [truthy String.eqb negb orb];
      rewrite ?orb_true_r; reflexivity.
  - intros H. unfold login. run.
    destruct H as [H|H]; rewrite H; cbn [truthy String.eqb negb orb];
      rewrite ?orb_true_r; reflexivity.
  - apply chat_handler_falsy. now rewrite H.
  - intros Hgate. unfold api_chat. rewrite Hgate.
    apply chat_handler_falsy. now rewrite H.
Qed.

End Properties.

(** ** The handlers on concrete requests *)

(** Ada signs up on the empty table, logs in, and both tokens pass the
    gate. *)
Lemma signup_login_token_roundtrip_witness :
  exists res1 d1 tok1,
    signup (L := Toy.libraries) Example.cfg Example.at_signup Example.ada
      empty_db = (res1, d1) /\
    status res1 = 201 /\
    prop (body res1) "user" = public_user 1 "Ada" "ada@x.com" /\
    prop (body res1) "token" = JStr tok1 /\
    verifyToken (L := Toy.libraries) Example.cfg 5000
      (Some ("Bearer " ++ tok1)) = Next (claims 1 "ada@x.com" 1000) /\
    forall d2, extends d1 d2 ->
      exists res2 tok2,
        login (L := Toy.libraries) Example.cfg Example.at_login
          Example.ada_login d2 = (res2, d2) /\
        status res2 = 200 /\
        prop (body res2) "user" = public_user 1 "Ada" "ada@x.com" /\
        prop (body res2) "token" = JStr tok2 /\
        verifyToken (L := Toy.libraries) Example.cfg 5000
          (Some ("Bearer " ++ tok2)) = Next (claims 1 "ada@x.com" 2000).
Proof.
  apply (@signup_login_token_roundtrip Toy.libraries
           toy_check_hash toy_hash_length toy_roundtrip toy_token_space
           toy_token_nonempty toy_prepare_string
           Example.cfg Example.at_signup Example.at_login 5000
           Example.ada Example.ada_login "Ada" "ada@x.com" "secret123"
           empty_db);
    try reflexivity; try discriminate; try apply empty_db_wf; simpl; lia.
Defined.

(** On the table that holds Ada, a login for Bob and a login for Ada
    with a wrong password get the same 401. *)
Lemma login_failures_indistinguishable_witness :
  login (L := Toy.libraries) Example.cfg Example.at_login Example.bob_login
    Example.db_ada
    = (status_json 401 [("error", JStr "Invalid credentials")], Example.db_ada) /\
  login (L := Toy.libraries) Example.cfg Example.at_login Example.ada_wrong
    Example.db_ada
    = (status_json 401 [("error", JStr "Invalid credentials")], Example.db_ada) /\
  fst (login (L := Toy.libraries) Example.cfg Example.at_login
         Example.bob_login Example.db_ada)
  = fst (login (L := Toy.libraries) Example.cfg Example.at_login
           Example.ada_wrong Example.db_ada).
Proof.
  apply (@login_failures_indistinguishable Toy.libraries
           Example.cfg Example.at_login Example.at_login
           Example.bob_login Example.ada_wrong "wrong"
           Example.db_ada Example.db_ada Example.row_ada []);
    try reflexivity; discriminate.
Defined.

(** C2, as the specification words it, fails: with the number 123 as
    password, present and matching no hash, a login under Ada's email
    is answered 500 with the message of the error [bcrypt.compare]
    rejects with, and a login under an email no row holds is answered
    401: the two can be told apart. *)
Lemma number_password_tells_accounts_apart :
  truthy (JNum 123) = true /\
  login (L := Toy.libraries) Example.cfg Example.at_login
    [("email", JStr "ada@x.com"); ("password", JNum 123)] Example.db_ada
    = (status_json 500 [("error", JStr "Illegal arguments: number, string")],
       Example.db_ada) /\
  login (L := Toy.libraries) Example.cfg Example.at_login
    [("email", JStr "bob@x.com"); ("password", JNum 123)] Example.db_ada
    = (status_json 401 [("error", JStr "Invalid credentials")], Example.db_ada).
Proof. split; [|split]; reflexivity. Qed.


(** With Ada's token and an empty body, the chat route answers 400 and
    sends nothing. *)
Lemma chat_without_message_no_upstream_witness :
  api_chat (L := Toy.libraries) Example.cfg 5000 Example.text_client
    (Some ("Bearer " ++ Example.token_ada)) [] []
    = (status_json 400 [("error", JStr "No message provided")], []).
Proof.
  apply (@chat_without_message_no_upstream Toy.libraries
           Example.cfg 5000 Example.text_client
           (Some ("Bearer " ++ Example.token_ada)) []
           (claims 1 "ada@x.com" 1000) []).
  - reflexivity.
  - simpl. intros H. exact H.
Defined.

(** Ada's signup: the body, the stored hash, and the same response
    under another salt. *)
Lemma signup_public_fields_only_witness :
  exists p r,
    get "password" Example.ada = JStr p /\
    Example.db_ada = mkDb (rows empty_db ++ [r]) (next_id empty_db + 1) /\
    col_password r = Toy.hashpw p "NaCl" /\
    body (fst (signup (L := Toy.libraries) Example.cfg Example.at_signup
                 Example.ada empty_db)) =
      JObj [("token",
             JStr (jwt_sign (L := Toy.libraries)
                     [("userId", JNum (col_id r));
                      ("email", JStr (col_email r))]
                     (secret Example.cfg) 1000));
            ("user",
             JObj [("id", JNum (col_id r)); ("name", JStr (col_name r));
                   ("email", JStr (col_email r))])] /\
    forall salt',
      fst (signup (L := Toy.libraries) Example.cfg (mkEnv salt' 1000)
             Example.ada empty_db)
      = fst (signup (L := Toy.libraries) Example.cfg Example.at_signup
               Example.ada empty_db).
Proof.
  apply (@signup_public_fields_only Toy.libraries
           toy_hash_length toy_prepare_string
           Example.cfg Example.at_signup Example.ada empty_db
           Example.db_ada); reflexivity.
Defined.

(** The token of Ada's signup verifies at every reading of the
    clock. *)
Lemma issued_tokens_never_expire_witness :
  exists tok u em,
    prop (body (fst (signup (L := Toy.libraries) Example.cfg
                       Example.at_signup Example.ada empty_db))) "token"
      = JStr tok /\
    tok = jwt_sign (L := Toy.libraries)
            [("userId", JNum u); ("email", JStr em)] (secret Example.cfg) 1000 /\
    get "exp" (claims u em 1000) = JUndefined /\
    forall clock,
      jwt_verify (L := Toy.libraries) (Some tok) (secret Example.cfg) clock
        = Ok (claims u em 1000) /\
      verifyToken (L := Toy.libraries) Example.cfg clock
        (Some ("Bearer " ++ tok)) = Next (claims u em 1000).
Proof.
  apply (@issued_tokens_never_expire Toy.libraries
           toy_roundtrip toy_token_space toy_token_nonempty toy_prepare_string
           Example.cfg Example.at_signup Example.ada empty_db Example.db_ada).
  left. split; reflexivity.
Defined.

(** With Ada's token, the question is sent once; a text block ["4"]
    comes back as the reply, a tool-use block as the fallback. *)
Lemma chat_reply_from_first_block_witness :
  api_chat (L := Toy.libraries) Example.cfg 5000 Example.text_client
    (Some ("Bearer " ++ Example.token_ada)) Example.question []
    = (mkResponse 200 (JObj [("reply", JStr "4")]),
       [chat_params (JStr "What is 2+2?")]) /\
  api_chat (L := Toy.libraries) Example.cfg 5000 Example.tool_client
    (Some ("Bearer " ++ Example.token_ada)) Example.question []
    = (mkResponse 200 (JObj [("reply", JStr "Could not understand response")]),
       [chat_params (JStr "What is 2+2?")]).
Proof.
  split.
  - apply (@chat_reply_from_first_block Toy.libraries
             Example.cfg 5000 Example.text_client
             (Some ("Bearer " ++ Example.token_ada)) Example.question
             (claims 1 "ada@x.com" 1000) []
             (mkMessage [[("type", JStr "text"); ("text", JStr "4")]])
             [("type", JStr "text"); ("text", JStr "4")] []);
      reflexivity.
  - apply (@chat_reply_from_first_block Toy.libraries
             Example.cfg 5000 Example.tool_client
             (Some ("Bearer " ++ Example.token_ada)) Example.question
             (claims 1 "ada@x.com" 1000) []
             (mkMessage [[("type", JStr "tool_use"); ("name", JStr "calc")]])
             [("type", JStr "tool_use"); ("name", JStr "calc")] []);
      try reflexivity.
    discriminate.
Defined.

(** No header and an empty header get ["No token"]; the word [Bearer]
    alone and a bare token get ["Invalid token"]; Ada's token after
    the word [Token] passes. *)
Lemma verifyToken_header_forms_witness :
  verifyToken (L := Toy.libraries) Example.cfg 5000 None
    = Respond (status_json 401 [("error", JStr "No token")]) /\
  verifyToken (L := Toy.libraries) Example.cfg 5000 (Some "")
    = Respond (status_json 401 [("error", JStr "No token")]) /\
  verifyToken (L := Toy.libraries) Example.cfg 5000 (Some "Bearer")
    = Respond (status_json 401 [("error", JStr "Invalid token")]) /\
  verifyToken (L := Toy.libraries) Example.cfg 5000 (Some Example.token_ada)
    = Respond (status_json 401 [("error", JStr "Invalid token")]) /\
  verifyToken (L := Toy.libraries) Example.cfg 5000
    (Some ("Token" ++ " " ++ Example.token_ada))
    = Next (claims 1 "ada@x.com" 1000).
Proof.
  destruct (@verifyToken_header_forms Toy.libraries
              toy_roundtrip toy_token_space toy_token_nonempty
              Example.cfg 5000) as (Hnone & _ & Hbare & Hword).
  split; [|split; [|split; [|split]]].
  - apply Hnone. now left.
  - apply Hnone. now right.
  - apply Hbare; [discriminate | reflexivity].
  - apply Hbare; [discriminate | reflexivity].
  - apply Hword. reflexivity.
Defined.

(** Empty strings in the three bodies. *)
Lemma empty_string_fields_rejected_witness :
  signup (L := Toy.libraries) Example.cfg Example.at_signup
    [("name", JStr "Ada"); ("email", JStr ""); ("password", JStr "secret123")]
    empty_db
    = (status_json 400 [("error", JStr "Missing required fields")], empty_db) /\
  login (L := Toy.libraries) Example.cfg Example.at_login
    [("email", JStr "ada@x.com"); ("password", JStr "")] Example.db_ada
    = (status_json 400 [("error", JStr "Missing email or password")],
       Example.db_ada) /\
  api_chat (L := Toy.libraries) Example.cfg 5000 Example.text_client
    (Some ("Bearer " ++ Example.token_ada)) [("message", JStr "")] []
    = (status_json 400 [("error", JStr "No message provided")], []).
Proof.
  split; [|split].
  - apply (@empty_string_fields_rejected Toy.libraries
             Example.cfg Example.at_signup 5000 Example.text_client None
             [("name", JStr "Ada"); ("email", JStr "");
              ("password", JStr "secret123")] [] empty_db []).
    right. left. reflexivity.
  - apply (@empty_string_fields_rejected Toy.libraries
             Example.cfg Example.at_login 5000 Example.text_client None
             [("email", JStr "ada@x.com"); ("password", JStr "")] []
             Example.db_ada []).
    right. reflexivity.
  - apply (@empty_string_fields_rejected Toy.libraries
             Example.cfg Example.at_login 5000 Example.text_client
             (Some ("Bearer " ++ Example.token_ada))
             [("message", JStr "")] (claims 1 "ada@x.com" 1000)
             empty_db []); reflexivity.
Defined.

(** An answer with no content block: 500, and no reply. *)
Lemma chat_empty_content_is_500_witness :
  api_chat (L := Toy.libraries) Example.cfg 5000 Example.empty_client
    (Some ("Bearer " ++ Example.token_ada)) Example.question []
    = (status_json 500
         [("error", JStr "Cannot read properties of undefined (reading 'type')")],
       [chat_params (JStr "What is 2+2?")]) /\
  prop (body (fst (api_chat (L := Toy.libraries) Example.cfg 5000
                     Example.empty_client
                     (Some ("Bearer " ++ Example.token_ada))
                     Example.question []))) "reply"
    = JUndefined.
Proof.
  apply (@chat_empty_content_is_500 Toy.libraries
           Example.cfg 5000 Example.empty_client
           (Some ("Bearer " ++ Example.token_ada)) Example.question
           (claims 1 "ada@x.com" 1000) [] (mkMessage [])); reflexivity.
Defined.

(** C8, as the specification words it, fails: the header
    [Basic <token>] with the token Ada's signup returned is there, is
    not of the form [Bearer <token>], and the gate does not answer it
    401 ["Invalid token"] but hands the request on with her claims. *)
Lemma basic_scheme_passes_gate :
  bearer_form ("Basic " ++ Example.token_ada) = false /\
  verifyToken (L := Toy.libraries) Example.cfg 5000
    (Some ("Basic " ++ Example.token_ada))
    = Next (claims 1 "ada@x.com" 1000) /\
  verifyToken (L := Toy.libraries) Example.cfg 5000
    (Some ("Basic " ++ Example.token_ada))
    <> Respond (status_json 401 [("error", JStr "Invalid token")]).
Proof.
  split; [reflexivity|]. split; [reflexivity|]. discriminate.
Qed.

(** * Further properties of the handlers *)

(** Whatever an insert does, no two rows share an id. *)
Lemma insert_user_ids (n e p : string) (ts : Z) (d : users_db) :
  db_wf d -> NoDup (map col_id (rows d)) ->
  NoDup (map col_id (rows (snd (insert_user n e p ts d)))).
Proof.
  intros Hwf Hnd.
  destruct (insert_user n e p ts d) as [[r|err] d1] eqn:H.
  - destruct (insert_user_inv _ _ _ _ _ _ _ H)
      as (n' & e' & p' & _ & _ & _ & Hr & Hd1 & _).
    subst d1. simpl. rewrite map_app. apply NoDup_app; auto.
    + simpl. repeat constructor. tauto.
    + intros a Hin [<-|[]]. subst r. simpl in Hin.
      apply in_map_iff in Hin. destruct Hin as (r0 & Hid & Hr0).
      unfold db_wf in Hwf. rewrite Forall_forall in Hwf.
      specialize (Hwf r0 Hr0). lia.
  - destruct (insert_user_refused _ _ _ _ _ _ _ H) as [Hrows _].
    simpl. now rewrite Hrows.
Qed.

Lemma truthy_false_iff (v : jsval) : truthy v = false <-> falsy v.
Proof.
  unfold falsy. split.
  - destruct v as [| |b|n|s|xs|fs]; simpl; intros H; auto; try discriminate.
    + destruct b; [discriminate | auto].
    + apply negb_false_iff, Z.eqb_eq in H. subst. auto.
    + apply negb_false_iff, String.eqb_eq in H. subst. auto 6.
  - intros [->|[->|[->|[->| ->]]]]; reflexivity.
Qed.

Section Outcomes.

Context {L : Libraries}.

Hypothesis bcrypt_hash_length :
  forall p s, String.length (bcrypt_hashpw p s) = 60%nat.
Hypothesis jws_roundtrip :
  forall k u e i, jws_decode k (jws_encode k (claims u e i)) = Some (claims u e i).
Hypothesis jws_no_space : forall k p, no_space (jws_encode k p) = true.
Hypothesis jws_nonempty : forall k p, jws_encode k p <> "".
Hypothesis prepare_string : forall s, prepareValue (JStr s) = s.

Ltac step :=
  unfold query_insert, query_select, select_by_email, messages_create;
  unfold try_catch, bind, lift, ret; cbv zeta.

(** X1: signup answers 201, 400 or 500 and nothing else.  On 201 the table
    has one more row, at its end, numbered with the id the sequence
    was at, and the response carries the public fields of that row;
    on 400 and 500 the rows are what they were.  Rows that were there
    are never changed or removed. *)
Theorem signup_appends_at_most_one (cfg : config) (e : env) (req : obj)
  (d : users_db) :
  (status (fst (signup cfg e req d)) = 201 /\
   exists r,
     rows (snd (signup cfg e req d)) = (rows d ++ [r])%list /\
     col_id r = next_id d /\
     prop (body (fst (signup cfg e req d))) "user"
       = public_user (col_id r) (col_name r) (col_email r)) \/
  ((status (fst (signup cfg e req d)) = 400 \/
    status (fst (signup cfg e req d)) = 500) /\
   rows (snd (signup cfg e req d)) = rows d).
Proof.
  unfold signup. step.
  destruct (negb (truthy (get "name" req)) || negb (truthy (get "email" req))
            || negb (truthy (get "password" req))); [right; simpl; auto|].
  destruct (bcrypt_hash _ _) as [h|err];
    [|right; simpl; destruct (is_unique_violation err); auto]. cbv beta.
  destruct (insert_user _ _ _ _ d) as [[r|err] d1] eqn:Hins.
  - left. split; [reflexivity|]. exists r.
    destruct (insert_user_inv _ _ _ _ _ _ _ Hins)
      as (n' & e' & p' & _ & _ & _ & Hr & Hd1 & _).
    subst d1. simpl. split; [reflexivity|]. split; [now subst r | reflexivity].
  - right. destruct (insert_user_refused _ _ _ _ _ _ _ Hins) as [Hrows _].
    simpl. split; [|exact Hrows].
    destruct (is_unique_violation err); auto.
Qed.

(** X2: a login answered 200 has checked the credentials: the table holds
    a row under the submitted email whose hash [bcrypt.compare]
    matched against the submitted password, a string, and the response
    carries the public fields of that row. *)
Theorem login_200_checked (cfg : config) (e : env) (req : obj) (d : users_db) :
  status (fst (login cfg e req d)) = 200 ->
  exists p r,
    get "password" req = JStr p /\
    In r (rows d) /\
    col_email r = prepareValue (get "email" req) /\
    bcrypt_checkpw p (col_password r) = true /\
    prop (body (fst (login cfg e req d))) "user"
      = public_user (col_id r) (col_name r) (col_email r).
Proof.
  intros Hst.
  destruct (login cfg e req d) as [res d'] eqn:H. simpl in *.
  destruct (login_granted cfg e req d d' res H Hst)
    as (p & r & rest & Hp & Hsel & Hm & Hres & _).
  subst res. exists p, r.
  assert (Hin : In r (with_email (prepareValue (get "email" req)) d)).
  { rewrite Hsel. now left. }
  unfold with_email in Hin. apply filter_In in Hin. destruct Hin as [Hin Heq].
  apply String.eqb_eq in Heq. repeat split; auto.
Qed.

(** X3: login never writes: the table and the sequence are what they were;
    and it answers 200, 400, 401 or 500 and nothing else. *)
Theorem login_reads_only (cfg : config) (e : env) (req : obj) (d : users_db) :
  snd (login cfg e req d) = d /\
  (status (fst (login cfg e req d)) = 200 \/
   status (fst (login cfg e req d)) = 400 \/
   status (fst (login cfg e req d)) = 401 \/
   status (fst (login cfg e req d)) = 500).
Proof.
  unfold login. step.
  destruct (negb (truthy (get "email" req)) || negb (truthy (get "password" req)));
    [simpl; auto|]. cbv beta.
  destruct (no_nul (prepareValue (get "email" req))); [|simpl; auto].
  destruct (with_email _ d) as [|r rest]; [simpl; auto|]. simpl.
  destruct (bcrypt_compare _ _) as [[|]|err]; simpl; auto.
Qed.

(** X5: past the presence check, a signup whose password is not a string
    is answered 500 with the message [bcrypt.hash] rejects with, before
    any query: the table and the sequence are what they were. *)
Theorem signup_password_not_string (cfg : config) (e : env) (req : obj)
  (d : users_db) :
  truthy (get "name" req) = true -> truthy (get "email" req) = true ->
  truthy (get "password" req) = true ->
  typeof (get "password" req) <> "string" ->
  signup cfg e req d
    = (status_json 500
         [("error",
           JStr ("Illegal arguments: " ++ typeof (get "password" req)
                   ++ ", number"))], d).
Proof.
  intros Tn Te Tp Hty. unfold signup. step. rewrite Tn, Te, Tp.
  cbn [negb orb].
  destruct (get "password" req); try reflexivity.
  now elim Hty.
Qed.

(** X4: the presence checks reject exactly [undefined], [null], [false],
    [0] and the empty string: signup answers 400
    ["Missing required fields"] if and only if one of its three fields
    is one of these, login answers 400 ["Missing email or password"]
    if and only if one of its two fields is, and the chat handler
    answers 400 ["No message provided"] if and only if the message
    is. *)
Theorem presence_checks_exact (cfg : config) (e : env) (req user : obj)
  (d : users_db) (client : api_client) (sent : list create_params) :
  (fst (signup cfg e req d)
     = status_json 400 [("error", JStr "Missing required fields")]
   <-> falsy (get "name" req) \/ falsy (get "email" req) \/
       falsy (get "password" req)) /\
  (fst (login cfg e req d)
     = status_json 400 [("error", JStr "Missing email or password")]
   <-> falsy (get "email" req) \/ falsy (get "password" req)) /\
  (fst (chat_handler client user req sent)
     = status_json 400 [("error", JStr "No message provided")]
   <-> falsy (get "message" req)).
Proof.
  rewrite <- !truthy_false_iff. split; [|split].
  - unfold signup. step.
    destruct (truthy (get "name" req)); [|simpl; intuition].
    destruct (truthy (get "email" req)); [|simpl; intuition].
    destruct (truthy (get "password" req)); [|simpl; intuition].
    cbn [negb orb].
    destruct (bcrypt_hash _ _) as [h|err].
    + cbv beta.
      destruct (insert_user _ _ _ _ d) as [[r|err] d1]; simpl.
      * split; [discriminate | intuition discriminate].
      * destruct (is_unique_violation err);
          (split; [discriminate | intuition discriminate]).
    + simpl. destruct (is_unique_violation err);
        (split; [discriminate | intuition discriminate]).
  - unfold login. step.
    destruct (truthy (get "email" req)); [|simpl; intuition].
    destruct (truthy (get "password" req)); [|simpl; intuition].
    cbn [negb orb]. cbv beta.
    destruct (no_nul (prepareValue (get "email" req)));
      [|simpl; split; [discriminate | intuition discriminate]].
    destruct (with_email _ d) as [|r rest]; simpl;
      [split; [discriminate | intuition discriminate]|].
    destruct (bcrypt_compare _ _) as [[|]|err]; simpl;
      (split; [discriminate | intuition discriminate]).
  - destruct (truthy (get "message" req)) eqn:T.
    + rewrite (chat_handler_run client user req sent T).
      destruct (client _) as [answer|err]; simpl;
        [|split; [discriminate | intuition discriminate]].
      destruct (content answer); simpl;
        (split; [discriminate | intuition discriminate]).
    + rewrite (chat_handler_falsy client user req sent T). simpl. intuition.
Qed.

(** Signup keeps the ids of the table distinct. *)
Lemma signup_keeps_ids (cfg : config) (e : env) (req : obj) (d : users_db) :
  db_wf d -> NoDup (map col_id (rows d)) ->
  NoDup (map col_id (rows (snd (signup cfg e req d)))).
Proof.
  intros Hwf Hnd. unfold signup. step.
  destruct (negb (truthy (get "name" req)) || negb (truthy (get "email" req))
            || negb (truthy (get "password" req))); [exact Hnd|].
  destruct (bcrypt_hash _ _) as [h|err]; [|exact Hnd]. cbv beta.
  pose proof (insert_user_ids (prepareValue (get "name" req))
                (prepareValue (get "email" req)) (prepareValue (JStr h))
                (now e) d Hwf Hnd) as W.
  destruct (insert_user _ _ _ _ d) as [[r|err] d1]; exact W.
Qed.

(** X6: in every table the server reaches from the empty one, no two rows
    share an id, no two rows share an email, and every id is below the
    sequence. *)
Theorem reachable_keys_distinct (d : users_db) :
  reachable d ->
  NoDup (map col_id (rows d)) /\
  NoDup (map col_email (rows d)) /\
  Forall (fun r => col_id r < next_id d) (rows d).
Proof.
  intros Hr. split; [|split].
  - induction Hr as [|cfg e req d Hd IH|cfg e req d Hd IH].
    + constructor.
    + apply signup_keeps_ids; [now apply reachable_wf | exact IH].
    + now rewrite login_keeps_table.
  - now apply reachable_unique.
  - now apply reachable_wf.
Qed.

(** Signup stores the hash it made and nothing else in the password
    column. *)
Lemma signup_keeps_hashed (cfg : config) (e : env) (req : obj) (d : users_db) :
  Forall hashed (rows d) -> Forall hashed (rows (snd (signup cfg e req d))).
Proof.
  intros Hh. unfold signup. step.
  destruct (negb (truthy (get "name" req)) || negb (truthy (get "email" req))
            || negb (truthy (get "password" req))); [exact Hh|].
  destruct (get "password" req) as [| |b|z|p|xs|fs]; try exact Hh.
  cbn [bcrypt_hash]. cbv beta. rewrite prepare_string.
  destruct (insert_user _ _ _ _ d) as [[r|err] d1] eqn:Hins.
  - destruct (insert_user_inv _ _ _ _ _ _ _ Hins)
      as (n' & e' & p' & _ & _ & Hp' & Hr & Hd1 & _).
    rewrite varchar255_short in Hp' by (rewrite bcrypt_hash_length; lia).
    inversion Hp'; subst p'. subst d1. simpl. apply Forall_app. split; auto.
    repeat constructor. subst r. now exists p, (salt e).
  - destruct (insert_user_refused _ _ _ _ _ _ _ Hins) as [Hrows _].
    simpl. now rewrite Hrows.
Qed.

(** X7: in every table the server reaches from the empty one, the password
    column of every row holds a hash [bcrypt.hash] made, never a value
    taken from a request as it came. *)
Theorem reachable_passwords_hashed (d : users_db) :
  reachable d -> Forall hashed (rows d).
Proof.
  induction 1 as [|cfg e req d _ IH|cfg e req d _ IH].
  - constructor.
  - now apply signup_keeps_hashed.
  - now rewrite login_keeps_table.
Qed.

(** X17: text that holds the character U+0000 is refused by the
    database before any row is looked at.  A signup that passed the
    presence check with a string password, and whose name or email is
    sent as such text, is answered 500 with the message of the
    database, and so is a login whose email is; the table and the
    sequence are what they were. *)
Theorem text_with_nul_is_500 (cfg : config) (e : env) (req : obj)
  (p : string) (d : users_db) :
  truthy (get "email" req) = true ->
  get "password" req = JStr p -> p <> "" ->
  (truthy (get "name" req) = true ->
   no_nul (prepareValue (get "name" req)) = false \/
   no_nul (prepareValue (get "email" req)) = false ->
   signup cfg e req d
     = (status_json 500
          [("error",
            JStr ("invalid byte sequence for encoding " ++ dquote ++ "UTF8"
                    ++ dquote ++ ": 0x00"))], d)) /\
  (no_nul (prepareValue (get "email" req)) = false ->
   login cfg e req d
     = (status_json 500
          [("error",
            JStr ("invalid byte sequence for encoding " ++ dquote ++ "UTF8"
                    ++ dquote ++ ": 0x00"))], d)).
Proof.
  intros Te Hp Np. split.
  - intros Tn Hx.
    rewrite (signup_run prepare_string cfg e req p d Tn Te Hp Np).
    unfold insert_user.
    assert (Hc : no_nul (prepareValue (get "name" req))
                 && no_nul (prepareValue (get "email" req))
                 && no_nul (bcrypt_hashpw p (salt e)) = false).
    { destruct Hx as [-> | ->]; [reflexivity|].
      now rewrite andb_false_r. }
    rewrite Hc. reflexivity.
  - intros Hx. unfold login. step. rewrite Te, Hp. cbn [truthy].
    rewrite (eqb_empty_false p Np). cbn [negb orb]. cbv beta.
    rewrite Hx. reflexivity.
Qed.

(** *** The gate, further *)

(** X8: with no [JWT_SECRET] in the environment, or an empty one, the gate
    accepts every token signed under the fixed key ["dev_secret_key"],
    for whatever user id and email it names. *)
Theorem default_secret_tokens_pass (cfg : config) (clock : Z) (u : Z)
  (em : string) (iat : Z) :
  JWT_SECRET cfg = None \/ JWT_SECRET cfg = Some "" ->
  verifyToken cfg clock
    (Some ("Bearer " ++
           jwt_sign [("userId", JNum u); ("email", JStr em)] "dev_secret_key" iat))
  = Next (claims u em iat).
Proof.
  intros H.
  assert (Hs : secret cfg = "dev_secret_key").
  { unfold secret. destruct H as [-> | ->]; reflexivity. }
  rewrite <- Hs.
  apply (verifyToken_issued jws_roundtrip jws_no_space jws_nonempty
           cfg clock "Bearer"). reflexivity.
Qed.

(** X9: the gate reads the second space-separated piece of the header and
    nothing after it: what follows a second space does not change the
    answer; and a header whose first space is followed by another
    space has an empty second piece and is answered 401
    ["Invalid token"], whatever comes after. *)
Theorem gate_reads_second_piece (cfg : config) (clock : Z)
  (w t rest : string) :
  no_space w = true -> no_space t = true ->
  verifyToken cfg clock (Some (w ++ " " ++ t ++ " " ++ rest))
    = verifyToken cfg clock (Some (w ++ " " ++ t)) /\
  verifyToken cfg clock (Some (w ++ "  " ++ rest))
    = Respond (status_json 401 [("error", JStr "Invalid token")]).
Proof.
  intros Hw Ht. split.
  - unfold verifyToken.
    change (w ++ " " ++ t ++ " " ++ rest)
      with (w ++ String " " (t ++ String " " rest)).
    change (w ++ " " ++ t) with (w ++ String " " t).
    rewrite !header_not_empty. cbv zeta.
    rewrite (split_word w _ Hw), (split_word t rest Ht).
    now rewrite (split_word w t Hw), (split_no_space t Ht).
  - unfold verifyToken.
    change (w ++ "  " ++ rest) with (w ++ String " " ("" ++ String " " rest)).
    rewrite header_not_empty. cbv zeta.
    rewrite (split_word w _ Hw), (split_word "" rest eq_refl).
    reflexivity.
Qed.

(** *** The chat endpoint, further *)

(** X10: when the call of [client.messages.create] rejects, for a
    request that passed the gate with a truthy message, the response
    is 500 with the message of the error as it came; the handler made
    that one call and makes no other. *)
Theorem chat_upstream_failure (cfg : config) (clock : Z)
  (client : api_client) (authorization : option string) (req user : obj)
  (sent : list create_params) (err : js_error) :
  verifyToken cfg clock authorization = Next user ->
  truthy (get "message" req) = true ->
  client (chat_params (get "message" req)) = Throw err ->
  api_chat cfg clock client authorization req sent
    = (status_json 500 [("error", JStr (message err))],
       (sent ++ [chat_params (get "message" req)])%list).
Proof.
  intros Hgate T Hup. unfold api_chat. rewrite Hgate.
  now rewrite (chat_handler_run client user req sent T), Hup.
Qed.

(** X11: the chat route calls [client.messages.create] exactly when the
    gate passed the request and its message is truthy, and then once,
    with the model ["claude-3-5-sonnet-20241022"], 1024 as the length
    limit, the system prompt of the source and the message as the
    only turn, under the role ["user"].  A request the gate answers
    gets that answer, whatever its body, and the client is not
    called. *)
Theorem chat_upstream_requests (cfg : config) (clock : Z)
  (client : api_client) (authorization : option string) (req : obj)
  (sent : list create_params) :
  snd (api_chat cfg clock client authorization req sent)
    = (if passes (verifyToken cfg clock authorization)
          && truthy (get "message" req)
       then
         (sent ++
          [mkParams "claude-3-5-sonnet-20241022" 1024
             "You are Ellerslie School AI, a helpful tutor designed for school students. Help with homework, explain concepts clearly, suggest study tips, and encourage learning. Keep responses focused and under 500 words."
             [[("role", JStr "user"); ("content", get "message" req)]]])%list
       else sent) /\
  forall res,
    verifyToken cfg clock authorization = Respond res ->
    api_chat cfg clock client authorization req sent = (res, sent).
Proof.
  unfold api_chat. split.
  - destruct (verifyToken cfg clock authorization) as [res|user];
      [reflexivity|]. simpl.
    destruct (truthy (get "message" req)) eqn:T.
    + now rewrite (chat_handler_run client user req sent T).
    + now rewrite (chat_handler_falsy client user req sent T).
  - intros res ->. reflexivity.
Qed.

End Outcomes.

(** * Startup *)

Ltac boot :=
  unfold start, initDb, app_listen, try_catch_do, andthen, bind, lift, emit,
    create_users, create_chats, create_messages.

Lemma initDb_returns (env : startup_env) (s : process) :
  fst (initDb env s) = Ok tt.
Proof.
  destruct s as [[u c m] tr]. boot. simpl.
  destruct (query_fault env "users"), (query_fault env "chats"),
    (query_fault env "messages"), u, c, m; reflexivity.
Qed.

(** X12: [initDb] never throws, whatever the connection does, and never
    touches a table that is there: its rows and its sequence are what
    they were. *)
Theorem initDb_keeps_tables (env : startup_env) (s : process) :
  fst (initDb env s) = Ok tt /\
  (forall t, users_table (db s) = Some t ->
             users_table (db (snd (initDb env s))) = Some t) /\
  (forall t, chats_table (db s) = Some t ->
             chats_table (db (snd (initDb env s))) = Some t) /\
  (forall t, messages_table (db s) = Some t ->
             messages_table (db (snd (initDb env s))) = Some t).
Proof.
  destruct s as [[u c m] tr]. boot. simpl.
  destruct (query_fault env "users"), (query_fault env "chats"),
    (query_fault env "messages"), u, c, m; simpl;
    repeat split; intros; try discriminate; auto.
Qed.

(** X13: when no query is rejected, [initDb] ends with the three tables
    there, logs the three ready lines in order and no error line, and
    running it again changes no table. *)
Theorem initDb_creates_all (env : startup_env) (s : process) :
  no_faults env ->
  users_table (db (snd (initDb env s))) <> None /\
  chats_table (db (snd (initDb env s))) <> None /\
  messages_table (db (snd (initDb env s))) <> None /\
  trace (snd (initDb env s)) = (trace s ++ ready_lines)%list /\
  db (snd (initDb env (snd (initDb env s)))) = db (snd (initDb env s)).
Proof.
  intros H. destruct s as [[u c m] tr]. boot. rewrite !H. simpl.
  destruct u, c, m; simpl; rewrite <- ?app_assoc; simpl;
    repeat split; discriminate.
Qed.

(** X14: the three statements run in one [try]: the first rejected query
    ends [initDb] with one error line.  When the query for [users] is
    rejected, no table is created, even one whose own query would go
    through; when the one for [chats] is rejected, [messages] is not
    tried. *)
Theorem initDb_stops_at_first_fault (env : startup_env) (s : process)
  (err : js_error) :
  (query_fault env "users" = Some err ->
   snd (initDb env s)
     = mkProcess (db s)
         (trace s ++ [LogError ("Database init error: " ++ message err)])) /\
  (query_fault env "users" = None -> query_fault env "chats" = Some err ->
   messages_table (db (snd (initDb env s))) = messages_table (db s) /\
   trace (snd (initDb env s))
     = (trace s ++ [Log "✓ Users table ready";
                    LogError ("Database init error: " ++ message err)])%list).
Proof.
  destruct s as [[u c m] tr]. split.
  - intros H. boot. now rewrite H.
  - intros Hu Hc. boot. rewrite Hu, Hc. simpl.
    destruct u; simpl; rewrite <- ?app_assoc; auto.
Qed.

(** X15: the tables are created in the order of their references, so
    no statement of [initDb] is ever refused for a table it refers to:
    whatever tables were there, [initDb] either prints the three ready
    lines, or ends, after the ready lines of the statements before,
    with the one error line of a query the connection rejected, for
    [users], [chats] or [messages]. *)
Theorem initDb_errors_are_rejections (env : startup_env) (s : process) :
  trace (snd (initDb env s)) = (trace s ++ ready_lines)%list \/
  exists k table err,
    nth_error ["users"; "chats"; "messages"] k = Some table /\
    query_fault env table = Some err /\
    trace (snd (initDb env s))
      = (trace s ++ firstn k ready_lines
           ++ [LogError ("Database init error: " ++ message err)])%list.
Proof.
  destruct s as [[u c m] tr]. boot. simpl.
  destruct (query_fault env "users") as [eu|] eqn:Fu.
  { right. exists 0%nat, "users", eu. simpl. auto. }
  destruct (query_fault env "chats") as [ec|] eqn:Fc.
  { right. exists 1%nat, "chats", ec.
    destruct u; simpl; rewrite <- ?app_assoc; auto. }
  destruct (query_fault env "messages") as [em|] eqn:Fm.
  { right. exists 2%nat, "messages", em.
    destruct u, c; simpl; rewrite <- ?app_assoc; auto. }
  left. destruct u, c, m; simpl; rewrite <- ?app_assoc; reflexivity.
Qed.

(** X16: whatever the database did, [start] goes on from [initDb] to
    [app.listen], on the port of [process.env.PORT], or on 3000 when
    that is unset or empty.  When the server comes to listen, the two
    lines of the callback follow; when [app.listen] throws, the
    ["Startup error:"] line and [process.exit(1)]; when the port
    cannot be bound, the call returns, the callback never runs, the
    program prints no line of its own and the process dies of the
    error, outside the [try]. *)
Theorem start_listens_whatever_database (env : startup_env) (s : process) :
  db (snd (start env s)) = db (snd (initDb env s)) /\
  trace (snd (start env s))
    = (trace (snd (initDb env s)) ++
       match listening env with
       | Listens =>
           match PORT env with
           | Some p =>
               if String.eqb p ""
               then [Listen (PortNumber 3000);
                     Log "✓ Server running at http://localhost:3000";
                     Log "✓ API base: http://localhost:3000/api"]
               else [Listen (PortString p);
                     Log ("✓ Server running at http://localhost:" ++ p);
                     Log ("✓ API base: http://localhost:" ++ p ++ "/api")]
           | None =>
               [Listen (PortNumber 3000);
                Log "✓ Server running at http://localhost:3000";
                Log "✓ API base: http://localhost:3000/api"]
           end
       | ListenThrows err => [LogErrorObject "Startup error:" err; Exit 1]
       | ListenFails err => [Uncaught err]
       end)%list.
Proof.
  pose proof (initDb_returns env s) as Hok.
  unfold start, try_catch_do, andthen, bind.
  destruct (initDb env s) as [[[]|err] s1]; [|discriminate]. simpl.
  unfold app_listen, port.
  destruct (listening env) as [|err|err]; simpl.
  - destruct (PORT env) as [p|]; [destruct (String.eqb p "")|];
      unfold andthen, bind, emit; simpl; now rewrite <- !app_assoc.
  - unfold andthen, bind, emit. simpl. now rewrite <- app_assoc.
  - unfold emit. simpl. now split.
Qed.

(** ** The further properties on concrete requests *)

(** Ada's login went through the check of her row. *)
Lemma login_200_checked_witness :
  exists p r,
    get "password" Example.ada_login = JStr p /\
    In r (rows Example.db_ada) /\
    col_email r = Toy.prepare (get "email" Example.ada_login) /\
    Toy.checkpw p (col_password r) = true /\
    prop (body (fst (login (L := Toy.libraries) Example.cfg Example.at_login
                       Example.ada_login Example.db_ada))) "user"
      = public_user (col_id r) (col_name r) (col_email r).
Proof.
  apply (@login_200_checked Toy.libraries Example.cfg Example.at_login
           Example.ada_login Example.db_ada). reflexivity.
Defined.

(** A signup with the number 123 as password. *)
Lemma signup_password_not_string_witness :
  signup (L := Toy.libraries) Example.cfg Example.at_signup
    [("name", JStr "Ada"); ("email", JStr "ada@x.com"); ("password", JNum 123)]
    empty_db
  = (status_json 500 [("error", JStr "Illegal arguments: number, number")],
     empty_db).
Proof.
  apply (@signup_password_not_string Toy.libraries Example.cfg
           Example.at_signup
           [("name", JStr "Ada"); ("email", JStr "ada@x.com");
            ("password", JNum 123)] empty_db);
    try reflexivity. discriminate.
Defined.

Lemma reachable_db_ada : reachable (L := Toy.libraries) Example.db_ada.
Proof. unfold Example.db_ada. apply reach_signup, reach_empty. Qed.

(** The table after Ada's signup. *)
Lemma reachable_keys_distinct_witness :
  NoDup (map col_id (rows Example.db_ada)) /\
  NoDup (map col_email (rows Example.db_ada)) /\
  Forall (fun r => col_id r < next_id Example.db_ada) (rows Example.db_ada).
Proof.
  apply (@reachable_keys_distinct Toy.libraries Example.db_ada).
  apply reachable_db_ada.
Defined.

Lemma reachable_passwords_hashed_witness :
  Forall (hashed (L := Toy.libraries)) (rows Example.db_ada).
Proof.
  apply (@reachable_passwords_hashed Toy.libraries
           toy_hash_length toy_prepare_string Example.db_ada).
  apply reachable_db_ada.
Defined.

(** With no secret configured, a token made outside the server under
    the fixed key, for a user id of one's choosing. *)
Lemma default_secret_tokens_pass_witness :
  verifyToken (L := Toy.libraries) Example.cfg 5000
    (Some ("Bearer " ++
           jwt_sign (L := Toy.libraries)
             [("userId", JNum 42); ("email", JStr "mallory@x.com")]
             "dev_secret_key" 0))
  = Next (claims 42 "mallory@x.com" 0).
Proof.
  apply (@default_secret_tokens_pass Toy.libraries
           toy_roundtrip toy_token_space toy_token_nonempty
           Example.cfg 5000 42 "mallory@x.com" 0).
  left. reflexivity.
Defined.

(** Ada's token followed by more, and after two spaces. *)
Lemma gate_reads_second_piece_witness :
  verifyToken (L := Toy.libraries) Example.cfg 5000
    (Some ("Bearer" ++ " " ++ Example.token_ada ++ " " ++ "and more"))
  = verifyToken (L := Toy.libraries) Example.cfg 5000
      (Some ("Bearer" ++ " " ++ Example.token_ada)) /\
  verifyToken (L := Toy.libraries) Example.cfg 5000
    (Some ("Bearer" ++ "  " ++ Example.token_ada))
  = Respond (status_json 401 [("error", JStr "Invalid token")]).
Proof.
  split.
  - apply (@gate_reads_second_piece Toy.libraries Example.cfg 5000
             "Bearer" Example.token_ada "and more");
      [reflexivity | exact (toy_token_space _ _)].
  - apply (@gate_reads_second_piece Toy.libraries Example.cfg 5000
             "Bearer" Example.token_ada Example.token_ada);
      [reflexivity | exact (toy_token_space _ _)].
Defined.

(** The model API is down: one request, one 500. *)
Lemma chat_upstream_failure_witness :
  api_chat (L := Toy.libraries) Example.cfg 5000 Boot.overloaded
    (Some ("Bearer " ++ Example.token_ada)) Example.question []
  = (status_json 500 [("error", JStr "529 overloaded")],
     [chat_params (JStr "What is 2+2?")]).
Proof.
  apply (@chat_upstream_failure Toy.libraries Example.cfg 5000
           Boot.overloaded (Some ("Bearer " ++ Example.token_ada))
           Example.question (claims 1 "ada@x.com" 1000) []
           (Error "529 overloaded")); reflexivity.
Defined.

(** A first start on a database with no tables. *)
Lemma initDb_creates_all_witness :
  users_table (db (snd (initDb Boot.all_up Boot.fresh))) <> None /\
  chats_table (db (snd (initDb Boot.all_up Boot.fresh))) <> None /\
  messages_table (db (snd (initDb Boot.all_up Boot.fresh))) <> None /\
  trace (snd (initDb Boot.all_up Boot.fresh)) = ready_lines /\
  db (snd (initDb Boot.all_up (snd (initDb Boot.all_up Boot.fresh))))
    = db (snd (initDb Boot.all_up Boot.fresh)).
Proof.
  apply (initDb_creates_all Boot.all_up Boot.fresh).
  intros table. reflexivity.
Defined.

(** A start with the database down, and one where only the query for
    [chats] is rejected. *)
Lemma initDb_stops_at_first_fault_witness :
  snd (initDb Boot.db_down Boot.fresh)
    = mkProcess no_tables
        [LogError "Database init error: connect ECONNREFUSED 127.0.0.1:5432"] /\
  messages_table (db (snd (initDb Boot.chats_down Boot.fresh))) = None /\
  trace (snd (initDb Boot.chats_down Boot.fresh))
    = [Log "✓ Users table ready";
       LogError "Database init error: connect ECONNREFUSED 127.0.0.1:5432"].
Proof.
  split.
  - apply (initDb_stops_at_first_fault Boot.db_down Boot.fresh Boot.refused).
    reflexivity.
  - apply (initDb_stops_at_first_fault Boot.chats_down Boot.fresh Boot.refused);
      reflexivity.
Defined.

(** A start with the database up on a port that is taken, one with
    the database down on port 8080, and one on a port out of range. *)
Lemma start_listens_whatever_database_witness :
  trace (snd (start Boot.port_taken Boot.fresh))
    = (ready_lines ++ [Uncaught Boot.in_use])%list /\
  trace (snd (start Boot.db_down Boot.fresh))
    = [LogError "Database init error: connect ECONNREFUSED 127.0.0.1:5432";
       Listen (PortString "8080");
       Log "✓ Server running at http://localhost:8080";
       Log "✓ API base: http://localhost:8080/api"] /\
  trace (snd (start Boot.all_up Boot.fresh))
    = (ready_lines ++
       [Listen (PortNumber 3000);
        Log "✓ Server running at http://localhost:3000";
        Log "✓ API base: http://localhost:3000/api"])%list /\
  trace (snd (start Boot.port_out_of_range Boot.fresh))
    = (ready_lines ++
       [LogErrorObject "Startup error:" Boot.bad_port; Exit 1])%list.
Proof.
  split; [|split; [|split]].
  - apply (start_listens_whatever_database Boot.port_taken Boot.fresh).
  - apply (start_listens_whatever_database Boot.db_down Boot.fresh).
  - apply (start_listens_whatever_database Boot.all_up Boot.fresh).
  - apply (start_listens_whatever_database Boot.port_out_of_range Boot.fresh).
Defined.


(** A signup named ["A"] followed by U+0000, and a login under an
    email that ends in U+0000. *)
Lemma text_with_nul_is_500_witness :
  signup (L := Toy.libraries) Example.cfg Example.at_signup
    [("name", JStr (String "A" (String zero EmptyString)));
     ("email", JStr "ada@x.com"); ("password", JStr "secret123")] empty_db
  = (status_json 500
       [("error",
         JStr ("invalid byte sequence for encoding " ++ dquote ++ "UTF8"
                 ++ dquote ++ ": 0x00"))], empty_db) /\
  login (L := Toy.libraries) Example.cfg Example.at_login
    [("email", JStr (String "a" (String zero EmptyString)));
     ("password", JStr "secret123")] Example.db_ada
  = (status_json 500
       [("error",
         JStr ("invalid byte sequence for encoding " ++ dquote ++ "UTF8"
                 ++ dquote ++ ": 0x00"))], Example.db_ada).
Proof.
  split.
  - apply (@text_with_nul_is_500 Toy.libraries toy_prepare_string
             Example.cfg Example.at_signup
             [("name", JStr (String "A" (String zero EmptyString)));
              ("email", JStr "ada@x.com"); ("password", JStr "secret123")]
             "secret123" empty_db);
      try reflexivity; try discriminate.
    left. reflexivity.
  - apply (@text_with_nul_is_500 Toy.libraries toy_prepare_string
             Example.cfg Example.at_login
             [("email", JStr (String "a" (String zero EmptyString)));
              ("password", JStr "secret123")]
             "secret123" Example.db_ada);
      try reflexivity; discriminate.
Defined.
